(** * Horoscope-to-video pipeline: a shallow embedding

    Embedding of [src/render/veo_horoscope_pipeline.py] and of
    [src/write/horoscope_writer.py].

    Python strings are byte strings here (UTF-8); every character the code
    inspects ('{', '}', '/', ASCII letters and digits) is a single byte in
    UTF-8 and never occurs inside a multi-byte sequence, so scanning bytes
    and scanning code points agree on them. *)

From Stdlib Require Import ZArith Ascii String DecimalString.
From stdpp Require Import base option list gmap strings.

Local Open Scope string_scope.
Local Open Scope Z_scope.

(** ** Python exceptions and results *)

Inductive exn : Type :=
| KeyError (key : string)
| IndexError (msg : string)
| ValueError (msg : string)
| TypeError (msg : string)
| AttributeError (msg : string)
| RuntimeError (msg : string)
| FileExistsError (p : string)
| FileNotFoundError (p : string)
| NotADirectoryError (p : string)
| IsADirectoryError (p : string)
| HTTPError
| ConnectionError.

Inductive result (A : Type) : Type :=
| Ok (a : A)
| Raise (e : exn).
Arguments Ok {A} a.
Arguments Raise {A} e.

Definition rbind {A B} (r : result A) (k : A -> result B) : result B :=
  match r with
  | Ok a => k a
  | Raise e => Raise e
  end.

Definition is_ok {A} (r : result A) : bool :=
  match r with Ok _ => true | Raise _ => false end.

(** ** Strings *)

Module PyStr.

(** [str(n)] for an [int]. *)
Definition str_of_int (z : Z) : string := NilZero.string_of_int (Z.to_int z).

Definition lower_ascii (c : ascii) : ascii :=
  let n := nat_of_ascii c in
  if ((65 <=? n) && (n <=? 90))%nat then ascii_of_nat (n + 32) else c.

(** [s.lower()], on ASCII letters; other bytes are left alone. *)
Fixpoint lower (s : string) : string :=
  match s with
  | EmptyString => EmptyString
  | String c s' => String (lower_ascii c) (lower s')
  end.

Definition is_digit (c : ascii) : bool :=
  let n := nat_of_ascii c in ((48 <=? n) && (n <=? 57))%nat.

Fixpoint all_digits (s : string) : bool :=
  match s with
  | EmptyString => true
  | String c s' => is_digit c && all_digits s'
  end.

Definition snoc (s : string) (c : ascii) : string := s +:+ String c "".

(** [sep.join(parts)] *)
Fixpoint join (sep : string) (parts : list string) : string :=
  match parts with
  | [] => ""
  | [p] => p
  | p :: ps => p +:+ sep +:+ join sep ps
  end.

(** [c in s] for a single character. *)
Fixpoint mem (c : ascii) (s : string) : bool :=
  match s with
  | EmptyString => false
  | String d s' => if Ascii.eqb c d then true else mem c s'
  end.

(** [needle in haystack] *)
Fixpoint contains (needle hay : string) : bool :=
  if String.prefix needle hay then true
  else match hay with
       | EmptyString => false
       | String _ hay' => contains needle hay'
       end.

(** Truthiness of a string: [bool(s)]. *)
Definition truthy (s : string) : bool :=
  match s with EmptyString => false | _ => true end.

End PyStr.

(** ** [str.format]

    [template.format(aspect=..., sign=..., caption=..., seconds=...)] is the
    one library call whose behaviour decides what [build_scene] returns, so
    its format-string grammar is modelled after CPython's
    [MarkupIterator_next], [field_name_split], [get_field_object] and
    [output_markup]: literal text, the escapes [{{] and [}}], replacement
    fields [{name}], [{name!c}], [{name:spec}], nested fields inside a
    format spec (one level), and every error of the grammar.

    What a field does with an attribute or index path ([{sign.upper}],
    [{sign[0]}]), a conversion ([!r]) or a non-empty format spec
    ([{seconds:>4}]) is the business of the objects' own [__getattribute__],
    [__getitem__], [__repr__] and [__format__]; the model takes those as
    parameters ([FormatBuiltins]) and fixes nothing about them. *)

Inductive value : Type :=
| VStr (s : string)
| VInt (z : Z).

Definition str_of_value (v : value) : string :=
  match v with
  | VStr s => s
  | VInt z => PyStr.str_of_int z
  end.

Class FormatBuiltins : Type := {
  pyobj : Type;
  (** the attribute/index path applied to the looked-up value, then the
      conversion *)
  py_resolve : value -> string -> option ascii -> result pyobj;
  (** [format(obj, spec)] outside the case of a bare [str]/[int] with an
      empty spec *)
  py_format : value + pyobj -> string -> result string
}.

Module PyFormat.

Inductive token : Type :=
| TChar (c : ascii)
| TField (name : string) (conv : option ascii) (spec : string) (expand : bool).

(** Where the markup iterator is inside the format string. *)
Inductive pstate : Type :=
| SLit
| SOpen
| SClose
| SName (name : string)
| SIndex (name : string)
| SBang (name : string)
| SConv (name : string) (conv : ascii)
| SSpec (name : string) (conv : option ascii) (spec : string)
        (count : nat) (expand : bool).

Inductive step_result : Type :=
| Goto (st : pstate)
| Emit (t : token)
| Fail (e : exn).

(** One character of a field name. *)
Definition step_name (name : string) (c : ascii) : step_result :=
  if Ascii.eqb c "{" then Fail (ValueError "unexpected '{' in field name")
  else if Ascii.eqb c "[" then Goto (SIndex (PyStr.snoc name c))
  else if Ascii.eqb c "}" then Emit (TField name None "" false)
  else if Ascii.eqb c ":" then Goto (SSpec name None "" 1 false)
  else if Ascii.eqb c "!" then Goto (SBang name)
  else Goto (SName (PyStr.snoc name c)).

Definition step (st : pstate) (c : ascii) : step_result :=
  match st with
  | SLit =>
      if Ascii.eqb c "{" then Goto SOpen
      else if Ascii.eqb c "}" then Goto SClose
      else Emit (TChar c)
  | SOpen =>
      if Ascii.eqb c "{" then Emit (TChar "{") else step_name "" c
  | SClose =>
      if Ascii.eqb c "}" then Emit (TChar "}")
      else Fail (ValueError "Single '}' encountered in format string")
  | SName name => step_name name c
  | SIndex name =>
      if Ascii.eqb c "]" then Goto (SName (PyStr.snoc name c))
      else Goto (SIndex (PyStr.snoc name c))
  | SBang name => Goto (SConv name c)
  | SConv name conv =>
      if Ascii.eqb c "}" then Emit (TField name (Some conv) "" false)
      else if Ascii.eqb c ":" then Goto (SSpec name (Some conv) "" 1 false)
      else Fail (ValueError "expected ':' after conversion specifier")
  | SSpec name conv spec count expand =>
      if Ascii.eqb c "{" then
        Goto (SSpec name conv (PyStr.snoc spec c) (S count) true)
      else if Ascii.eqb c "}" then
        match count with
        | 1%nat | 0%nat => Emit (TField name conv spec expand)
        | S n => Goto (SSpec name conv (PyStr.snoc spec c) n expand)
        end
      else Goto (SSpec name conv (PyStr.snoc spec c) count expand)
  end.

(** The end of the format string in each state. *)
Definition at_end (st : pstate) : option exn :=
  match st with
  | SLit => None
  | SOpen => Some (ValueError "Single '{' encountered in format string")
  | SClose => Some (ValueError "Single '}' encountered in format string")
  | SName _ | SIndex _ =>
      Some (ValueError "expected '}' before end of string")
  | SBang _ =>
      Some (ValueError "end of string while looking for conversion specifier")
  | SConv _ _ | SSpec _ _ _ _ _ =>
      Some (ValueError "unmatched '{' in format spec")
  end.

(** The tokens of a format string in order, and the syntax error that
    stops the scan, if any.  CPython renders each token before it scans
    for the next one, so the tokens before a syntax error are rendered
    (and their errors raised) first. *)
Fixpoint scan (st : pstate) (s : string) : list token * option exn :=
  match s with
  | EmptyString => ([], at_end st)
  | String c s' =>
      match step st c with
      | Goto st' => scan st' s'
      | Emit t => let '(ts, e) := scan SLit s' in (t :: ts, e)
      | Fail e => ([], Some e)
      end
  end.

Definition tokenize (s : string) : list token * option exn := scan SLit s.

(** [field_name_split]: the part of a field name before the first '.'
    or '[', and the rest. *)
Fixpoint field_name_split (name : string) : string * string :=
  match name with
  | EmptyString => ("", "")
  | String c rest =>
      if Ascii.eqb c "." || Ascii.eqb c "[" then ("", name)
      else let '(first, path) := field_name_split rest in
           (String c first, path)
  end.

Definition first_part (name : string) : string := fst (field_name_split name).

Definition PY_SSIZE_T_MAX : Z := 9223372036854775807.

(** [get_integer], on a string of ASCII digits. *)
Fixpoint get_integer (acc : Z) (s : string) : result Z :=
  match s with
  | EmptyString => Ok acc
  | String c s' =>
      let d := Z.of_nat (nat_of_ascii c) - 48 in
      if (PY_SSIZE_T_MAX - d) / 10 <? acc
      then Raise (ValueError "Too many decimal digits in format string")
      else get_integer (acc * 10 + d) s'
  end.

Fixpoint lookup_kw (kwargs : list (string * value)) (key : string)
  : option value :=
  match kwargs with
  | [] => None
  | (k, v) :: rest => if String.eqb k key then Some v else lookup_kw rest key
  end.

(** [get_field_object] up to the first part of the name.  The call passes
    keyword arguments only, so the tuple of positional arguments is
    empty and every numbered or empty field is out of range.  Numbers
    are read in ASCII digits; a name in other decimal digits, a number
    too for CPython, fails here as an unknown keyword, with [KeyError]
    where CPython gives [IndexError]. *)
Definition get_field_object (kwargs : list (string * value)) (first : string)
  : result value :=
  if PyStr.all_digits first then
    rbind (get_integer 0 first) (fun idx =>
      Raise (IndexError ("Replacement index " +:+ PyStr.str_of_int idx +:+
                         " out of range for positional args tuple")))
  else match lookup_kw kwargs first with
       | Some v => Ok v
       | None => Raise (KeyError first)
       end.

Section Render.
Context `{FormatBuiltins}.
Variable kwargs : list (string * value).
(** [build_string] one recursion level down, for nested fields. *)
Variable expand_spec : string -> result string.

(** [output_markup] *)
Definition render_field (name : string) (conv : option ascii)
    (spec : string) (expand : bool) : result string :=
  let '(first, path) := field_name_split name in
  rbind (get_field_object kwargs first) (fun v =>
  rbind (match path, conv with
         | EmptyString, None => Ok (inl v)
         | _, _ => rbind (py_resolve v path conv) (fun o => Ok (inr o))
         end) (fun obj =>
  rbind (if expand then expand_spec spec else Ok spec) (fun spec' =>
  match obj, spec' with
  | inl v, EmptyString => Ok (str_of_value v)
  | _, _ => py_format obj spec'
  end))).

Fixpoint render_tokens (ts : list token) (stop : option exn)
  : result string :=
  match ts with
  | [] => match stop with None => Ok "" | Some e => Raise e end
  | TChar c :: ts' =>
      rbind (render_tokens ts' stop) (fun out => Ok (String c out))
  | TField name conv spec expand :: ts' =>
      rbind (render_field name conv spec expand) (fun piece =>
      rbind (render_tokens ts' stop) (fun out => Ok (piece +:+ out)))
  end.

(** Rendering what the scanner yields from a given state. *)
Definition render_scan (st : pstate) (s : string) : result string :=
  let '(ts, stop) := scan st s in render_tokens ts stop.
End Render.

(** [build_string] with its recursion budget. *)
Fixpoint build_string `{FormatBuiltins} (depth : nat)
    (kwargs : list (string * value)) (template : string) : result string :=
  match depth with
  | O => Raise (ValueError "Max string recursion exceeded")
  | S d => render_scan kwargs (build_string d kwargs) SLit template
  end.

(** [template.format(k1=v1, ...)] *)
Definition format `{FormatBuiltins} (template : string)
    (kwargs : list (string * value)) : result string :=
  build_string 2 kwargs template.

End PyFormat.

(** ** Paths (pathlib's pure paths on POSIX) *)

(** A path is its anchor ([""] for a relative path, ["/"] or ["//"]) and
    its parts below the anchor.  The file system below identifies a file
    with its path: symbolic links and [".."] parts are not resolved. *)
Abbreviation Path := (string * list string)%type.

Module PyPath.

Fixpoint split_on (sep : ascii) (cur : string) (s : string) : list string :=
  match s with
  | EmptyString => [cur]
  | String c s' =>
      if Ascii.eqb c sep then cur :: split_on sep "" s'
      else split_on sep (PyStr.snoc cur c) s'
  end.

Definition kept_part (part : string) : bool :=
  negb (String.eqb part "") && negb (String.eqb part ".").

(** The anchor of a path string: ["//x"] keeps two slashes, any other
    leading run of slashes is the root. *)
Definition splitroot (s : string) : string :=
  match s with
  | String "/" (String "/" (String "/" _)) => "/"
  | String "/" (String "/" _) => "//"
  | String "/" _ => "/"
  | _ => ""
  end.

Definition parse_parts (s : string) : list string :=
  filter (fun part => Is_true (kept_part part)) (split_on "/" "" s).

(** [Path(s)] *)
Definition of_string (s : string) : Path := (splitroot s, parse_parts s).

(** [p / s] *)
Definition div (p : Path) (s : string) : Path :=
  match splitroot s with
  | EmptyString => (p.1, (p.2 ++ parse_parts s)%list)
  | root => (root, parse_parts s)
  end.

(** [p.parent] *)
Definition parent (p : Path) : Path := (p.1, removelast p.2).

(** [p] with one more part. *)
Definition child (p : Path) (part : string) : Path :=
  (p.1, (p.2 ++ [part])%list).

(** [str(p)] *)
Definition str (p : Path) : string :=
  match p.1, p.2 with
  | EmptyString, [] => "."
  | root, parts => root +:+ PyStr.join "/" parts
  end.

End PyPath.

Infix "//" := PyPath.div (at level 40, left associativity).

(** ** Data model *)

Record RenderSpec : Type := {
  aspect_ratio : string;
  seconds : Z;
  fps : Z;
  seed : option Z
}.

Record SceneSpec : Type := {
  sign : string;
  script_text : string;
  prompt : string;
  render : RenderSpec;
  style_tag : string
}.

Record VideoJob : Type := {
  id : string;
  scene : SceneSpec;
  status : string;
  video_path : option string
}.

(** [scene.prompt = p] *)
Definition set_prompt (s : SceneSpec) (p : string) : SceneSpec :=
  {| sign := sign s; script_text := script_text s; prompt := p;
     render := render s; style_tag := style_tag s |}.

(** One element of the manifest's ["jobs"] list. *)
Record JobEntry : Type := {
  entry_id : string;
  entry_sign : string;
  entry_status : string;
  entry_style : string;
  entry_video_path : option string;
  entry_prompt_file : string
}.

(** The dictionary handed to [json.dumps]. *)
Record Manifest : Type := {
  manifest_date : string;
  manifest_aspect_ratio : string;
  manifest_seconds : Z;
  manifest_jobs : list JobEntry
}.

Record Date : Type := { year : Z; month : Z; day : Z }.

Module PyDate.

Definition is_leap (y : Z) : bool :=
  ((y mod 4 =? 0) && negb (y mod 100 =? 0)) || (y mod 400 =? 0).

Definition days_in_month (y m : Z) : Z :=
  if m =? 2 then (if is_leap y then 29 else 28)
  else if (m =? 4) || (m =? 6) || (m =? 9) || (m =? 11) then 30 else 31.

(** What [datetime.date(y, m, d)] accepts. *)
Definition valid (d : Date) : bool :=
  (1 <=? year d) && (year d <=? 9999) && (1 <=? month d) && (month d <=? 12)
  && (1 <=? day d) && (day d <=? days_in_month (year d) (month d)).

Definition digit (n : Z) : string := PyStr.str_of_int (n mod 10).

Definition pad2 (n : Z) : string := digit (n / 10) +:+ digit n.

Definition pad4 (n : Z) : string :=
  digit (n / 1000) +:+ digit (n / 100) +:+ digit (n / 10) +:+ digit n.

(** [d.isoformat()] *)
Definition isoformat (d : Date) : string :=
  pad4 (year d) +:+ "-" +:+ pad2 (month d) +:+ "-" +:+ pad2 (day d).

Definition month_name (m : Z) : string :=
  nth (Z.to_nat (m - 1))
    ["January"; "February"; "March"; "April"; "May"; "June"; "July";
     "August"; "September"; "October"; "November"; "December"] "".

(** [d.strftime("%B %d, %Y")] in the C locale; glibc prints the year
    without padding. *)
Definition strftime_long (d : Date) : string :=
  month_name (month d) +:+ " " +:+ pad2 (day d) +:+ ", " +:+
  PyStr.str_of_int (year d).

End PyDate.

(** ** The world: file system, environment, clock, network, trace *)

Inductive content : Type :=
| TextFile (text : string)
| BinaryFile (bytes : string)
(** [json.dumps(manifest, indent=2)], kept as the value it serialises *)
| JsonFile (doc : Manifest).

Inductive node : Type :=
| Dir
| File (c : content).

(** What the client reads from one HTTP response. *)
Record Response : Type := {
  status_ok : bool;                  (* [raise_for_status()] passes *)
  json_name : option string;         (* [data["name"]] *)
  json_done : bool;                  (* [data.get("done", False)] *)
  json_videoUri : option string;     (* [data.get("response", {}).get("videoUri")] *)
  body : string                      (* the streamed content *)
}.

(** What a run does, in order: the calls to the file system and to the
    network, the pauses between polls, what is printed, and, logged by the
    job loop of [run] itself, the return of each [submit] and of each
    [poll_until_done]. *)
Inductive event : Type :=
| EvMkdir (p : Path)
| EvWrite (p : Path) (c : content)
| EvPost (url : string) (text : string)
| EvGet (url : string)
| EvSleep (secs : Z)
| EvSubmitted (job_id : string)
| EvPolled (job_id : string) (job_status : string)
| EvPrint (completed : nat) (out : string).

Record World : Type := {
  fs : gmap Path node;
  environ : gmap string string;
  (** the value of [int(utcnow().timestamp())] at the n-th reading *)
  clock : nat -> Z;
  clock_reads : nat;
  (** the responses the network will give, in order; past the last one a
      request fails with a connection error *)
  network : list Response;
  trace : list event
}.

Definition with_fs (w : World) (f : gmap Path node) : World :=
  {| fs := f; environ := environ w; clock := clock w;
     clock_reads := clock_reads w; network := network w; trace := trace w |}.

Definition with_trace (w : World) (t : list event) : World :=
  {| fs := fs w; environ := environ w; clock := clock w;
     clock_reads := clock_reads w; network := network w; trace := t |}.

Definition with_network (w : World) (n : list Response) : World :=
  {| fs := fs w; environ := environ w; clock := clock w;
     clock_reads := clock_reads w; network := n; trace := trace w |}.

Definition with_clock_reads (w : World) (n : nat) : World :=
  {| fs := fs w; environ := environ w; clock := clock w;
     clock_reads := n; network := network w; trace := trace w |}.

(** Computations that read and change the world and may raise; the world
    reached when an exception is raised is kept. *)
Definition M (A : Type) : Type := World -> result A * World.

Definition ret {A} (a : A) : M A := fun w => (Ok a, w).

Definition raise {A} (e : exn) : M A := fun w => (Raise e, w).

Definition bind {A B} (m : M A) (k : A -> M B) : M B :=
  fun w => match m w with
           | (Ok a, w') => k a w'
           | (Raise e, w') => (Raise e, w')
           end.

Definition lift {A} (r : result A) : M A := fun w => (r, w).

Definition log (e : event) : M unit :=
  fun w => (Ok tt, with_trace w (trace w ++ [e])).

Notation "'let!' x ':=' m 'in' k" := (bind m (fun x => k))
  (at level 10, x name, m at level 100, k at level 200).
Notation "m ';;;' k" := (bind m (fun _ => k))
  (at level 100, k at level 200, right associativity).

(** [for x in xs: body(x)] collecting nothing. *)
Fixpoint for_each {A} (xs : list A) (body : A -> M unit) : M unit :=
  match xs with
  | [] => ret tt
  | x :: xs' => body x ;;; for_each xs' body
  end.

(** [for x in xs: ys.append(body(x))] *)
Fixpoint for_collect {A B} (xs : list A) (body : A -> M B) : M (list B) :=
  match xs with
  | [] => ret []
  | x :: xs' =>
      let! y := body x in
      let! ys := for_collect xs' body in
      ret (y :: ys)
  end.

(** A list comprehension whose element expression may raise. *)
Fixpoint comprehension {A B} (xs : list A) (f : A -> result B)
  : result (list B) :=
  match xs with
  | [] => Ok []
  | x :: xs' =>
      rbind (f x) (fun y => rbind (comprehension xs' f) (fun ys => Ok (y :: ys)))
  end.

Module PyOS.

(** The current directory and the root always exist. *)
Definition node_at (f : gmap Path node) (p : Path) : option node :=
  match p.2 with
  | [] => Some Dir
  | _ => f !! p
  end.

Definition is_dir (f : gmap Path node) (p : Path) : bool :=
  match node_at f p with Some Dir => true | _ => false end.

(** [os.mkdir(p)].  A regular file above the parent, which the system
    reports as [NotADirectoryError] at once, shows here as a missing
    parent; [mkdir_parents_rev] then meets the file on its way up and
    raises [NotADirectoryError] from there. *)
Definition os_mkdir (f : gmap Path node) (p : Path)
  : result (gmap Path node) :=
  match node_at f p with
  | Some _ => Raise (FileExistsError (PyPath.str p))
  | None =>
      match node_at f (PyPath.parent p) with
      | None => Raise (FileNotFoundError (PyPath.str p))
      | Some (File _) => Raise (NotADirectoryError (PyPath.str p))
      | Some Dir => Ok (<[p := Dir]> f)
      end
  end.

(** [p.mkdir(exist_ok=True)] *)
Definition mkdir_exist_ok (f : gmap Path node) (p : Path)
  : result (gmap Path node) :=
  match os_mkdir f p with
  | Ok f' => Ok f'
  | Raise (FileNotFoundError s) => Raise (FileNotFoundError s)
  | Raise e => if is_dir f p then Ok f else Raise e
  end.

(** [p.mkdir(parents=True, exist_ok=True)], by recursion on the parts of
    [p] from the last one up, as [Path.mkdir] recurses on [p.parent]. *)
Fixpoint mkdir_parents_rev (root : string) (rparts : list string)
    (f : gmap Path node) : result (gmap Path node) :=
  let p := (root, rev rparts) in
  match os_mkdir f p with
  | Ok f' => Ok f'
  | Raise (FileNotFoundError s) =>
      match rparts with
      | [] => Raise (FileNotFoundError s)
      | _ :: rparents =>
          rbind (mkdir_parents_rev root rparents f) (fun f1 =>
          mkdir_exist_ok f1 p)
      end
  | Raise e => if is_dir f p then Ok f else Raise e
  end.

Definition mkdir_parents_exist_ok (f : gmap Path node) (p : Path)
  : result (gmap Path node) :=
  mkdir_parents_rev p.1 (rev p.2) f.

(** [open(p, "w")] or [open(p, "wb")], the write and the close. *)
Definition write_file (f : gmap Path node) (p : Path) (c : content)
  : result (gmap Path node) :=
  match node_at f p with
  | Some Dir => Raise (IsADirectoryError (PyPath.str p))
  | _ =>
      match node_at f (PyPath.parent p) with
      | None => Raise (FileNotFoundError (PyPath.str p))
      | Some (File _) => Raise (NotADirectoryError (PyPath.str p))
      | Some Dir => Ok (<[p := File c]> f)
      end
  end.

Definition on_fs (op : gmap Path node -> result (gmap Path node)) : M unit :=
  fun w => match op (fs w) with
           | Ok f' => (Ok tt, with_fs w f')
           | Raise e => (Raise e, w)
           end.

Definition mkdir (p : Path) (parents : bool) : M unit :=
  log (EvMkdir p) ;;;
  on_fs (fun f => if parents then mkdir_parents_exist_ok f p
                  else mkdir_exist_ok f p).

Definition write (p : Path) (c : content) : M unit :=
  log (EvWrite p c) ;;; on_fs (fun f => write_file f p c).

(** [os.getenv(name)] *)
Definition getenv (name : string) : M (option string) :=
  fun w => (Ok (environ w !! name), w).

(** [int(dt.datetime.utcnow().timestamp())] *)
Definition utc_timestamp : M Z :=
  fun w => (Ok (clock w (clock_reads w)),
            with_clock_reads w (S (clock_reads w))).

(** One request: the next scripted response. *)
Definition request (ev : event) : M Response :=
  log ev ;;;
  fun w => match network w with
           | [] => (Raise ConnectionError, w)
           | r :: rest => (Ok r, with_network w rest)
           end.

(** [r.raise_for_status()] *)
Definition raise_for_status (r : Response) : M unit :=
  if status_ok r then ret tt else raise HTTPError.

End PyOS.

(** ** The text generator *)

Definition ZODIAC_SIGNS : list string :=
  ["Aries"; "Taurus"; "Gemini"; "Cancer"; "Leo"; "Virgo";
   "Libra"; "Scorpio"; "Sagittarius"; "Capricorn"; "Aquarius"; "Pisces"].

Module HoroscopeWriter.

(** The characters [str.isspace] accepts, which are the ones
    [str.strip] removes, each as its UTF-8 bytes: U+0009 to U+000D,
    U+001C to U+0020, U+0085, U+00A0, U+1680, U+2000 to U+200A, U+2028,
    U+2029, U+202F, U+205F and U+3000. *)
Definition bytes (codes : list nat) : string :=
  string_of_list_ascii (map ascii_of_nat codes).

Definition WHITESPACE : list string :=
  map bytes
    [[9]; [10]; [11]; [12]; [13]; [28]; [29]; [30]; [31]; [32];
     [194; 133]; [194; 160]; [225; 154; 128];
     [226; 128; 128]; [226; 128; 129]; [226; 128; 130]; [226; 128; 131];
     [226; 128; 132]; [226; 128; 133]; [226; 128; 134]; [226; 128; 135];
     [226; 128; 136]; [226; 128; 137]; [226; 128; 138];
     [226; 128; 168]; [226; 128; 169]; [226; 128; 175];
     [226; 129; 159]; [227; 128; 128]]%nat.

(** [s] without its first [n] bytes. *)
Fixpoint drop (n : nat) (s : string) : string :=
  match n, s with
  | S k, String _ s' => drop k s'
  | _, _ => s
  end.

(** The one of [chars] that [s] starts with. *)
Definition leading (chars : list string) (s : string) : option string :=
  List.find (fun x => String.prefix x s) chars.

(** [s] without the characters of [chars] it starts with, one character
    a turn; a string has no more characters than bytes. *)
Fixpoint drop_leading (chars : list string) (turns : nat) (s : string)
  : string :=
  match turns with
  | O => s
  | S n =>
      match leading chars s with
      | Some x => drop_leading chars n (drop (String.length x) s)
      | None => s
      end
  end.

(** [s.lstrip()] *)
Definition lstrip (s : string) : string :=
  drop_leading WHITESPACE (String.length s) s.

(** [s.rstrip()]: the same from the other end, on the reversed bytes. *)
Definition rstrip (s : string) : string :=
  String.rev (drop_leading (map String.rev WHITESPACE) (String.length s)
                           (String.rev s)).

(** [s.strip()] *)
Definition strip (s : string) : string := rstrip (lstrip s).

Definition user_prompt (today sign : string) : string :=
  "Date: " +:+ today +:+ String "010" "" +:+
  "Sign: " +:+ sign +:+ String "010" (String "010" "") +:+
  "Write a short daily horoscope (2–3 sentences). " +:+
  "Include a concrete prediction or recommended action for today.".

Definition placeholder (sign : string) : string :=
  "(" +:+ sign +:+ " placeholder horoscope: Today is a lucky day! 🌟)".

(** A client of the chat service: what
    [client.chat.completions.create(model=..., messages=...)] answers
    for a model and a user prompt, as [resp.choices[0].message.content
    or ""]; [None] when the call or the access raises. *)
Definition Chat : Type := string -> string -> option string.

(** [_client()]: [new_client key] is [OpenAI(api_key=key)], which may
    raise; [getenv] is the environment once [load_dotenv()] has run. *)
Definition _client (getenv : string -> option string)
    (new_client : string -> result Chat) : result Chat :=
  match getenv "OPENAI_API_KEY" with
  | Some (String c key) => new_client (String c key)
  | _ => Raise (RuntimeError "OPENAI_API_KEY missing. Add it to your .env")
  end.

(** [_model()] *)
Definition _model (getenv : string -> option string) : string :=
  default "gpt-4o-mini" (getenv "MODEL").

(** [generate_daily_horoscopes] of the writer module.  The client and
    the model are got before the loop, outside its [try]; inside it a
    failing chat call gives the placeholder of the sign. *)
Definition generate_daily_horoscopes (getenv : string -> option string)
    (new_client : string -> result Chat) (topic_date : Date)
  : result (list (string * string)) :=
  rbind (_client getenv new_client) (fun client =>
  let model := _model getenv in
  let today := PyDate.strftime_long topic_date in
  Ok (map (fun sign =>
             (sign, match client model (user_prompt today sign) with
                    | Some text => strip text
                    | None => placeholder sign
                    end)) ZODIAC_SIGNS)).

End HoroscopeWriter.

(** The fallback defined by the pipeline module when the writer cannot be
    imported or no OpenAI key is set. *)
Definition generate_daily_horoscopes_mock (topic_date : Date)
  : result (list (string * string)) :=
  let date_str := PyDate.strftime_long topic_date in
  let signs :=
    ["Aries"; "Taurus"; "Gemini"; "Cancer"; "Leo"; "Virgo";
     "Libra"; "Scorpio"; "Sagittarius"; "Capricorn"; "Aquarius"; "Pisces"] in
  Ok (map (fun sign =>
             (sign, sign +:+ ": " +:+ date_str +:+
                    " is your lucky day — test horoscope only.")) signs).

(** The module-level name [generate_daily_horoscopes], bound at import:
    the writer's function when the writer imports and a key is set, the
    mock otherwise.  Nothing in the program changes the environment, so
    the [getenv] of the import is the one the writer reads when called. *)
Definition generate_daily_horoscopes (writer_imports : bool)
    (getenv : string -> option string)
    (new_client : string -> result HoroscopeWriter.Chat)
  : Date -> result (list (string * string)) :=
  if writer_imports && PyStr.truthy (default "" (getenv "OPENAI_API_KEY"))
  then HoroscopeWriter.generate_daily_horoscopes getenv new_client
  else generate_daily_horoscopes_mock.

(** ** Prompt template and transformers *)

Definition DEFAULT_TEMPLATE : string :=
  "Cinematic {aspect} shot. Theme: whimsical astrology vlog in a cozy neon-lit studio. " +:+
  "Foreground: narrator presence implied via over-the-shoulder framing or empty chair, " +:+
  "floating holographic zodiac glyphs for {sign}. Ambient particle dust. Soft volumetric " +:+
  "light through blinds. Camera: slow push-in, shallow depth of field. " +:+
  "Color palette: muted teal, soft gold highlights. " +:+
  "On-screen caption (subtitle style): '{caption}'. " +:+
  "Keep timing readable for {seconds}s.".

(** The [PromptTransformer] protocol: [__call__(prompt, scene) -> str]. *)
Definition PromptTransformer : Type := string -> SceneSpec -> string.

Definition IdentityTransformer : PromptTransformer :=
  fun prompt scene => prompt.

Definition CyberpunkPunchup : PromptTransformer :=
  fun prompt scene =>
    let addon :=
      " Add neon signage in the distance, subtle rain streaks, and UI scanlines." in
    prompt +:+ addon.

(** ** The two definitions of [VeoClient]

    A client is what the pipeline uses of it: its key and its two methods. *)
Record Client : Type := {
  api_key : string;
  submit : SceneSpec -> M VideoJob;
  poll_until_done : VideoJob -> Path -> M VideoJob
}.

(** [a or b] on an optional string and a fallback. *)
Definition or_else {A} (a : option string) (fallback : A) (inj : string -> A) : A :=
  match a with
  | Some (String c s) => inj (String c s)
  | _ => fallback
  end.

(** The first definition of the class (lines 25-94), which talks to the
    remote service.  The second definition rebinds the name, so nothing in
    the module reaches this one. *)
Module VeoClientLive.

Definition BASE_URL : string :=
  "https://generativelanguage.googleapis.com/v1beta".
Definition MODEL_ID : string := "veo-3.0-fast-generate-001".

Definition submit (scene : SceneSpec) : M VideoJob :=
  let! r := PyOS.request
              (EvPost (BASE_URL +:+ "/models/" +:+ MODEL_ID +:+ ":generateVideo")
                      (prompt scene)) in
  PyOS.raise_for_status r ;;;
  match json_name r with
  | None => raise (KeyError "name")
  | Some job_id =>
      ret {| id := job_id; scene := scene; status := "queued";
             video_path := None |}
  end.

Definition set_failed (job : VideoJob) : VideoJob :=
  {| id := id job; scene := scene job; status := "failed";
     video_path := video_path job |}.

Definition set_done (job : VideoJob) (p : string) : VideoJob :=
  {| id := id job; scene := scene job; status := "done";
     video_path := Some p |}.

(** The download branch of the polling loop. *)
Definition download (job : VideoJob) (out_dir : Path) (video_url : string)
  : M VideoJob :=
  let renders := out_dir // "renders" in
  PyOS.mkdir renders true ;;;
  let video_path := renders // (id job +:+ ".mp4") in
  let! resp := PyOS.request (EvGet video_url) in
  PyOS.raise_for_status resp ;;;
  PyOS.write video_path (BinaryFile (body resp)) ;;;
  ret (set_done job (PyPath.str video_path)).

(** [while True: ...]: each turn consumes one scripted response, so the
    loop is a recursion on the script still to come. *)
Fixpoint poll_loop (script : list Response) (job : VideoJob)
    (out_dir : Path) : M VideoJob :=
  log (EvGet (BASE_URL +:+ "/operations/" +:+ id job)) ;;;
  match script with
  | [] => raise ConnectionError
  | r :: rest =>
      (fun w => (Ok tt, with_network w rest)) ;;;
      PyOS.raise_for_status r ;;;
      if json_done r then
        match json_videoUri r with
        | Some (String c u) => download job out_dir (String c u)
        | _ => ret (set_failed job)
        end
      else
        log (EvSleep 5) ;;; poll_loop rest job out_dir
  end.

Definition poll_until_done (job : VideoJob) (out_dir : Path) : M VideoJob :=
  fun w => poll_loop (network w) job out_dir w.

Definition make (key : string) : Client :=
  Build_Client key submit poll_until_done.

(** [VeoClient(api_key)] *)
Definition init (key : option string) : M Client :=
  let! env_key := PyOS.getenv "VEO_API_KEY" in
  match or_else key (or_else env_key None Some) Some with
  | None => raise (RuntimeError "VEO_API_KEY missing — add it to your .env")
  | Some k => ret (make k)
  end.

End VeoClientLive.

(** The second definition (lines 166-179), the one the name [VeoClient]
    denotes when [main] and the pipeline run. *)
Module VeoClient.

Definition submit (scene : SceneSpec) : M VideoJob :=
  let! now := PyOS.utc_timestamp in
  let job_id :=
    "veo_" +:+ PyStr.lower (sign scene) +:+ "_" +:+ PyStr.str_of_int now in
  ret {| id := job_id; scene := scene; status := "queued";
         video_path := None |}.

Definition poll_until_done (job : VideoJob) (out_dir : Path) : M VideoJob :=
  let renders := out_dir // "renders" in
  PyOS.mkdir renders true ;;;
  ret {| id := id job; scene := scene job; status := "done";
         video_path := Some (PyPath.str (renders // (id job +:+ ".mp4"))) |}.

Definition make (key : string) : Client :=
  Build_Client key submit poll_until_done.

(** [VeoClient(api_key)] *)
Definition init (key : option string) : M Client :=
  let! env_key := PyOS.getenv "VEO_API_KEY" in
  ret (make (or_else key (default "demo-key" env_key) (fun k => k))).

End VeoClient.

(** ** Scene planner *)

Record ScenePlanner : Type := {
  planner_render : RenderSpec;
  planner_style_tag : string
}.

(** The keyword arguments of the [format] call in [build_scene]. *)
Definition scene_kwargs (self : ScenePlanner) (sign text : string)
  : list (string * value) :=
  [("aspect", VStr (aspect_ratio (planner_render self)));
   ("sign", VStr sign);
   ("caption", VStr text);
   ("seconds", VInt (seconds (planner_render self)))].

Definition build_scene `{FormatBuiltins} (self : ScenePlanner)
    (sign text template : string) : result SceneSpec :=
  rbind (PyFormat.format template (scene_kwargs self sign text))
        (fun prompt =>
           Ok {| sign := sign; script_text := text; prompt := prompt;
                 render := planner_render self;
                 style_tag := planner_style_tag self |}).

(** ** Orchestrator *)

Record HoroscopeVeoPipeline : Type := {
  veo : Client;
  transformers : list PromptTransformer
}.

(** [transformers or [IdentityTransformer()]] *)
Definition pipeline_init (veo : Client)
    (transformers : option (list PromptTransformer)) : HoroscopeVeoPipeline :=
  {| veo := veo;
     transformers := match transformers with
                     | Some (t :: ts) => t :: ts
                     | _ => [IdentityTransformer]
                     end |}.

(** [for t in self.transformers: scene.prompt = t(scene.prompt, scene)]:
    each transformer is handed the scene as the previous ones left it. *)
Fixpoint apply_transformers (ts : list PromptTransformer) (scene : SceneSpec)
  : SceneSpec :=
  match ts with
  | [] => scene
  | t :: ts' => apply_transformers ts' (set_prompt scene (t (prompt scene) scene))
  end.

Definition prompt_file (out_dir : Path) (scene : SceneSpec) : Path :=
  out_dir // "prompts" // (sign scene +:+ ".txt").

(** The first loop of [run]; the scenes are the same objects afterwards,
    with their prompts rewritten. *)
Fixpoint write_prompts (ts : list PromptTransformer) (out_dir : Path)
    (scenes : list SceneSpec) : M (list SceneSpec) :=
  match scenes with
  | [] => ret []
  | scene :: rest =>
      let scene' := apply_transformers ts scene in
      PyOS.write (prompt_file out_dir scene') (TextFile (prompt scene')) ;;;
      let! rest' := write_prompts ts out_dir rest in
      ret (scene' :: rest')
  end.

(** The second loop of [run]. *)
Definition run_jobs (veo : Client) (out_dir : Path) (scenes : list SceneSpec)
  : M (list VideoJob) :=
  for_collect scenes (fun scene =>
    let! job := submit veo scene in
    log (EvSubmitted (id job)) ;;;
    let! job := poll_until_done veo job out_dir in
    log (EvPolled (id job) (status job)) ;;;
    ret job).

Definition job_entry (j : VideoJob) : JobEntry :=
  {| entry_id := id j;
     entry_sign := sign (scene j);
     entry_status := status j;
     entry_style := style_tag (scene j);
     entry_video_path := video_path j;
     entry_prompt_file := "prompts/" +:+ sign (scene j) +:+ ".txt" |}.

Definition make_manifest (date : Date) (render : RenderSpec)
    (jobs : list VideoJob) : Manifest :=
  {| manifest_date := PyDate.isoformat date;
     manifest_aspect_ratio := aspect_ratio render;
     manifest_seconds := seconds render;
     manifest_jobs := map job_entry jobs |}.

Section Run.
Context `{FormatBuiltins}.
(** the module-level [generate_daily_horoscopes] *)
Variable generate : Date -> result (list (string * string)).

Definition run (self : HoroscopeVeoPipeline) (date : Date) (out_dir : Path)
    (render : RenderSpec) (template : string) (style_tag : string)
  : M (list VideoJob) :=
  PyOS.mkdir out_dir true ;;;
  PyOS.mkdir (out_dir // "prompts") false ;;;
  PyOS.mkdir (out_dir // "renders") false ;;;
  let! scripts := lift (generate date) in
  let planner := {| planner_render := render; planner_style_tag := style_tag |} in
  let! scenes := lift (comprehension scripts (fun '(sign, text) =>
                         build_scene planner sign text template)) in
  let! scenes := write_prompts (transformers self) out_dir scenes in
  let! jobs := run_jobs (veo self) out_dir scenes in
  let manifest := make_manifest date render jobs in
  PyOS.write (out_dir // "manifest.json") (JsonFile manifest) ;;;
  ret jobs.

(** ** Command line *)

Record Args : Type := {
  args_date : option Date;       (* [--date], parsed *)
  args_out : string;
  args_aspect : string;
  args_fps : Z;
  args_style : string;
  args_cyberpunk : bool
}.

Definition build_transformers (args : Args) : list PromptTransformer :=
  let transformers := [IdentityTransformer] in
  if args_cyberpunk args then (transformers ++ [CyberpunkPunchup])%list
  else transformers.

(** [main], with the client class it names passed in and [today] for
    [dt.date.today()]. *)
Definition main_with (client_init : option string -> M Client)
    (today : Date) (args : Args) : M unit :=
  let date := default today (args_date args) in
  let render := {| aspect_ratio := args_aspect args; seconds := 8;
                   fps := args_fps args; seed := None |} in
  let out_dir := PyPath.of_string (args_out args) in
  let transformers := build_transformers args in
  let! client := client_init None in
  let pipeline := pipeline_init client (Some transformers) in
  let! jobs := run pipeline date out_dir render DEFAULT_TEMPLATE
                   (args_style args) in
  log (EvPrint (length jobs) (PyPath.str (out_dir // "manifest.json"))).

(** [main] as the module defines it: [VeoClient] is the second class. *)
Definition main : Date -> Args -> M unit := main_with VeoClient.init.

End Run.

(** ** Templates made of literal text and the four placeholders *)

Inductive placeholder : Type := PAspect | PSign | PCaption | PSeconds.

Definition placeholder_name (h : placeholder) : string :=
  match h with
  | PAspect => "aspect"
  | PSign => "sign"
  | PCaption => "caption"
  | PSeconds => "seconds"
  end.

Definition RECOGNIZED : list string := ["aspect"; "sign"; "caption"; "seconds"].

Definition marker (h : placeholder) : string :=
  "{" +:+ placeholder_name h +:+ "}".

Inductive piece : Type :=
| Text (s : string)
| Hole (h : placeholder).

Definition brace_free (s : string) : bool :=
  negb (PyStr.mem "{" s) && negb (PyStr.mem "}" s).

Definition piece_ok (p : piece) : bool :=
  match p with
  | Text s => brace_free s
  | Hole _ => true
  end.

Definition piece_source (p : piece) : string :=
  match p with
  | Text s => s
  | Hole h => marker h
  end.

Fixpoint template_of (ps : list piece) : string :=
  match ps with
  | [] => ""
  | p :: ps' => piece_source p +:+ template_of ps'
  end.

(** What [build_scene] passes for each keyword, as [str()] shows it. *)
Definition placeholder_value (self : ScenePlanner) (sign text : string)
    (h : placeholder) : string :=
  match h with
  | PAspect => aspect_ratio (planner_render self)
  | PSign => sign
  | PCaption => text
  | PSeconds => PyStr.str_of_int (seconds (planner_render self))
  end.

Fixpoint fill (values : placeholder -> string) (ps : list piece) : string :=
  match ps with
  | [] => ""
  | Text s :: ps' => s +:+ fill values ps'
  | Hole h :: ps' => values h +:+ fill values ps'
  end.

Definition DEFAULT_PIECES : list piece :=
  [Text "Cinematic "; Hole PAspect;
   Text " shot. Theme: whimsical astrology vlog in a cozy neon-lit studio. Foreground: narrator presence implied via over-the-shoulder framing or empty chair, floating holographic zodiac glyphs for ";
   Hole PSign;
   Text ". Ambient particle dust. Soft volumetric light through blinds. Camera: slow push-in, shallow depth of field. Color palette: muted teal, soft gold highlights. On-screen caption (subtitle style): '";
   Hole PCaption; Text "'. Keep timing readable for "; Hole PSeconds; Text "s."].

(** The contract of the planner in the words of the specification, "the
    template with placeholders {aspect}, {sign}, {caption}, {seconds}
    substituted from the corresponding fields", read as the textual
    replacement of the four markers from left to right.  It is not what the
    code calls; it is here to be compared with [str.format]. *)
Definition marker_at (s : string) : option placeholder :=
  if String.prefix (marker PAspect) s then Some PAspect
  else if String.prefix (marker PSign) s then Some PSign
  else if String.prefix (marker PCaption) s then Some PCaption
  else if String.prefix (marker PSeconds) s then Some PSeconds
  else None.

Fixpoint substitute_markers (skip : nat) (values : placeholder -> string)
    (template : string) : string :=
  match template with
  | EmptyString => EmptyString
  | String c rest =>
      match skip with
      | S k => substitute_markers k values rest
      | O =>
          match marker_at template with
          | Some h =>
              values h +:+
              substitute_markers (String.length (placeholder_name h) + 1)
                                 values rest
          | None => String c (substitute_markers 0 values rest)
          end
      end
  end.

Definition has_marker (s : string) : bool :=
  PyStr.contains (marker PAspect) s || PyStr.contains (marker PSign) s ||
  PyStr.contains (marker PCaption) s || PyStr.contains (marker PSeconds) s.

Definition has_all_markers (s : string) : bool :=
  PyStr.contains (marker PAspect) s && PyStr.contains (marker PSign) s &&
  PyStr.contains (marker PCaption) s && PyStr.contains (marker PSeconds) s.

(** The names a format string refers to: the first part of every
    replacement field, and of the fields nested in format specs down to
    [levels] levels. *)
Fixpoint token_fields (nested : string -> list string)
    (ts : list PyFormat.token) : list string :=
  match ts with
  | [] => []
  | PyFormat.TChar _ :: ts' => token_fields nested ts'
  | PyFormat.TField name _ spec expand :: ts' =>
      (PyFormat.first_part name ::
       (if expand then nested spec else [])) ++ token_fields nested ts'
  end%list.

Fixpoint referenced_fields (levels : nat) (template : string) : list string :=
  token_fields (match levels with
                | O => fun _ => []
                | S n => referenced_fields n
                end)
               (PyFormat.tokenize template).1.

(** A transformer that quotes the prompt the scene carries when it is
    called. *)
Definition EchoScenePrompt : PromptTransformer :=
  fun text scene => text +:+ " (was: " +:+ prompt scene +:+ ")".

(** ** What a run of the pipeline leaves behind *)


(** A string that [p / s] appends to [p] as one part. *)
Definition simple_name (s : string) : bool :=
  String.eqb (PyPath.splitroot s) "" &&
  bool_decide (PyPath.parse_parts s = [s]).

(** The scene [build_scene] returns for a template of pieces. *)
Definition built_scene (self : ScenePlanner) (ps : list piece)
    (script : string * string) : SceneSpec :=
  {| sign := script.1; script_text := script.2;
     prompt := fill (placeholder_value self script.1 script.2) ps;
     render := planner_render self; style_tag := planner_style_tag self |}.

(** The scenes of a run as the first loop leaves them. *)
Definition final_scenes (ts : list PromptTransformer) (render : RenderSpec)
    (style : string) (ps : list piece) (scripts : list (string * string))
  : list SceneSpec :=
  map (apply_transformers ts)
      (map (built_scene {| planner_render := render;
                           planner_style_tag := style |} ps) scripts).

(** The jobs the second client returns for the scenes in order, from the
    [n]-th reading of the clock on. *)
Fixpoint stub_jobs (out_dir : Path) (clk : nat -> Z) (n : nat)
    (scenes : list SceneSpec) : list VideoJob :=
  match scenes with
  | [] => []
  | scene :: rest =>
      let job_id :=
        "veo_" +:+ PyStr.lower (sign scene) +:+ "_" +:+
        PyStr.str_of_int (clk n) in
      {| id := job_id; scene := scene; status := "done";
         video_path :=
           Some (PyPath.str (out_dir // "renders" // (job_id +:+ ".mp4"))) |}
      :: stub_jobs out_dir clk (S n) rest
  end.

Definition prompt_event (out_dir : Path) (scene : SceneSpec) : event :=
  EvWrite (prompt_file out_dir scene) (TextFile (prompt scene)).

Definition job_events (out_dir : Path) (j : VideoJob) : list event :=
  [EvSubmitted (id j); EvMkdir (out_dir // "renders"); EvPolled (id j) (status j)].

Definition write_all (out_dir : Path) (scenes : list SceneSpec)
    (f : gmap Path node) : gmap Path node :=
  foldl (fun f scene =>
           <[prompt_file out_dir scene := File (TextFile (prompt scene))]> f)
        f scenes.

Definition absent_or_dir (f : gmap Path node) (p : Path) : bool :=
  match PyOS.node_at f p with
  | None | Some Dir => true
  | Some (File _) => false
  end.

(** The output directory can be made, and nothing in it stands in the
    way of the two subdirectories, the prompt files and the manifest. *)
Definition out_dir_usable (f : gmap Path node) (out_dir : Path)
    (signs : list string) : bool :=
  match PyOS.mkdir_parents_exist_ok f out_dir with
  | Raise _ => false
  | Ok f1 =>
      absent_or_dir f1 (out_dir // "prompts") &&
      absent_or_dir f1 (out_dir // "renders") &&
      forallb (fun sign =>
                 negb (PyOS.is_dir f1 (out_dir // "prompts" // (sign +:+ ".txt"))))
              signs &&
      negb (PyOS.is_dir f1 (out_dir // "manifest.json"))
  end.

(** The file system after a run that started with [f1] as the result of
    making the output directory. *)
Definition final_fs (out_dir : Path) (scenes : list SceneSpec)
    (m : Manifest) (f1 : gmap Path node) : gmap Path node :=
  <[out_dir // "manifest.json" := File (JsonFile m)]>
    (write_all out_dir scenes
       (<[out_dir // "renders" := Dir]> (<[out_dir // "prompts" := Dir]> f1))).



Definition is_http (e : event) : bool :=
  match e with
  | EvPost _ _ | EvGet _ => true
  | _ => false
  end.




(** A computation that makes no request: the script of responses is as
    it was and no request is logged. *)
Definition offline {A} (m : M A) : Prop :=
  forall w,
    network (m w).2 = network w /\
    exists evs, trace (m w).2 = (trace w ++ evs)%list /\
                forallb (fun e => negb (is_http e)) evs = true.

Definition mp4_path (out_dir : Path) (j : VideoJob) : Path :=
  out_dir // "renders" // (id j +:+ ".mp4").

(** [p] is [q] or one of its ancestors. *)
Definition ancestor_or_self (p q : Path) : Prop :=
  p.1 = q.1 /\ p.2 `prefix_of` q.2.

(** ** Saving the texts

    [save_horoscopes] of the writer module and the script entry below
    it.  [json.dump(horoscopes, f, ensure_ascii=False, indent=2)] is
    modelled on a dictionary of strings, the only kind the function is
    given. *)

Module PyJson.

Definition quote_char : ascii := "034".
Definition backslash : ascii := "092".
Definition newline : string := String "010" "".

Definition hex_digit (n : nat) : ascii :=
  nth n (list_ascii_of_string "0123456789abcdef") "0"%char.

(** One character of a string as the encoder writes it: the quote, the
    backslash and the control characters are escaped, every other byte
    goes through unchanged. *)
Definition escape_char (c : ascii) : string :=
  let n := nat_of_ascii c in
  if (n =? 34)%nat then String backslash (String quote_char "")
  else if (n =? 92)%nat then String backslash (String backslash "")
  else if (n =? 8)%nat then String backslash "b"
  else if (n =? 12)%nat then String backslash "f"
  else if (n =? 10)%nat then String backslash "n"
  else if (n =? 13)%nat then String backslash "r"
  else if (n =? 9)%nat then String backslash "t"
  else if (n <? 32)%nat then
    String backslash
      ("u00" +:+ String (hex_digit (n / 16)%nat)
                   (String (hex_digit (n mod 16)%nat) ""))
  else String c "".

Fixpoint escape (s : string) : string :=
  match s with
  | EmptyString => EmptyString
  | String c s' => escape_char c +:+ escape s'
  end.

Definition dumps_str (s : string) : string :=
  String quote_char (escape s) +:+ String quote_char "".

Definition dumps_item (item : string * string) : string :=
  "  " +:+ dumps_str item.1 +:+ ": " +:+ dumps_str item.2.

(** [json.dumps(d, ensure_ascii=False, indent=2)] *)
Definition dumps_dict (items : list (string * string)) : string :=
  match items with
  | [] => "{}"
  | _ => "{" +:+ newline +:+
         PyStr.join ("," +:+ newline) (map dumps_item items) +:+
         newline +:+ "}"
  end.

End PyJson.

(** [d.strftime("%Y-%m-%d")]; glibc prints the year without padding. *)
Definition strftime_ymd (d : Date) : string :=
  PyStr.str_of_int (year d) +:+ "-" +:+ PyDate.pad2 (month d) +:+ "-" +:+
  PyDate.pad2 (day d).

Definition horoscope_file (out_dir : Path) (sign : string) : Path :=
  out_dir // (sign +:+ ".txt").

(** [save_horoscopes(horoscopes, base_dir)], with [today] for
    [datetime.date.today()] and the dictionary as its items in order. *)
Definition save_horoscopes (today : Date) (horoscopes : list (string * string))
    (base_dir : string) : M string :=
  let date_tag := strftime_ymd today in
  let out_dir := PyPath.of_string base_dir // date_tag in
  PyOS.mkdir out_dir true ;;;
  let json_path := out_dir // "horoscopes.json" in
  PyOS.write json_path (TextFile (PyJson.dumps_dict horoscopes)) ;;;
  for_each horoscopes (fun '(sign, text) =>
    PyOS.write (horoscope_file out_dir sign) (TextFile text)) ;;;
  ret (PyPath.str out_dir).

(** The script entry of the writer module; the value is the line it
    prints. *)
Definition writer_main (getenv : string -> option string)
    (new_client : string -> result HoroscopeWriter.Chat) (today : Date)
  : M string :=
  let! hs := lift (HoroscopeWriter.generate_daily_horoscopes getenv new_client
                     today) in
  let! folder := save_horoscopes today hs "data/horoscopes" in
  ret ("✅ Saved " +:+ PyStr.str_of_int (Z.of_nat (length hs)) +:+
       " horoscopes to " +:+ folder).

(** ** Vocabulary for the properties below *)

Fixpoint last_char (s : string) : option ascii :=
  match s with
  | EmptyString => None
  | String c EmptyString => Some c
  | String _ s' => last_char s'
  end.

Definition first_char (s : string) : option ascii :=
  match s with
  | EmptyString => None
  | String c _ => Some c
  end.

(** The concatenation of strings. *)
Fixpoint flatten (parts : list string) : string :=
  match parts with
  | [] => ""
  | p :: ps => p +:+ flatten ps
  end.

(** A string made of white-space characters only. *)
Definition white (s : string) : Prop :=
  exists chars, Forall (fun x => In x HoroscopeWriter.WHITESPACE) chars /\
                s = flatten chars.

(** No white-space character at either end. *)
Definition trimmed (s : string) : bool :=
  match HoroscopeWriter.leading HoroscopeWriter.WHITESPACE s,
        HoroscopeWriter.leading (map String.rev HoroscopeWriter.WHITESPACE)
                                (String.rev s) with
  | None, None => true
  | _, _ => false
  end.



(** Literal text as a format string: every brace doubled. *)
Fixpoint escape_braces (s : string) : string :=
  match s with
  | EmptyString => EmptyString
  | String c s' =>
      if Ascii.eqb c "{" || Ascii.eqb c "}"
      then String c (String c (escape_braces s'))
      else String c (escape_braces s')
  end.

(** The format string for a list of pieces whose texts may hold braces. *)
Fixpoint escaped_template_of (ps : list piece) : string :=
  match ps with
  | [] => ""
  | Text s :: ps' => escape_braces s +:+ escaped_template_of ps'
  | Hole h :: ps' => marker h +:+ escaped_template_of ps'
  end.

(** What a run shows of a scene: the render spec is in none of its
    outputs. *)
Definition same_outputs (s s' : SceneSpec) : Prop :=
  sign s = sign s' /\ prompt s = prompt s' /\ style_tag s = style_tag s'.

(** [args] with another [--fps]. *)
Definition with_fps (args : Args) (fps : Z) : Args :=
  {| args_date := args_date args; args_out := args_out args;
     args_aspect := args_aspect args; args_fps := fps;
     args_style := args_style args; args_cyberpunk := args_cyberpunk args |}.

(** ** A remote service that serves every job *)







(** ** The sentences of the specification that the code does not bear out,
    as the specification words them *)

(** Section 8, template substitution round-trip: for a template holding
    each of the four placeholders the scene is built, its prompt is the
    template with the markers replaced, holds the substituted values, and
    no marker is left in it. *)
Definition placeholders_all_resolved : Prop :=
  forall (B : FormatBuiltins) (self : ScenePlanner) (sign text template : string),
    has_all_markers template = true ->
    exists scene,
      build_scene self sign text template = Ok scene /\
      prompt scene =
        substitute_markers 0 (placeholder_value self sign text) template /\
      (forall h, PyStr.contains (placeholder_value self sign text h)
                                (prompt scene) = true) /\
      has_marker (prompt scene) = false.

(** Section 8, chain composition: the chain [A, B] gives what applying [A]
    and then [B] to the base prompt of the scene gives. *)
Definition chain_is_manual_composition : Prop :=
  forall (A B : PromptTransformer) (scene : SceneSpec),
    prompt (apply_transformers [A; B] scene) =
    B (A (prompt scene) scene) scene.

(** A transformer that never looks at the prompt field of its scene. *)
Definition ignores_scene_prompt (t : PromptTransformer) : Prop :=
  forall text scene p, t text (set_prompt scene p) = t text scene.



(** ** Sample values for the examples *)

(** A concrete reading of the object protocol, for examples: no attribute
    path, conversion or non-empty format spec is supported.  The templates
    of the examples have bare fields only and never reach it. *)
Definition bare_builtins : FormatBuiltins := {|
  pyobj := Empty_set;
  py_resolve := fun _ _ _ => Raise (AttributeError "unsupported in examples");
  py_format := fun _ _ => Raise (ValueError "unsupported in examples")
|}.

Definition world0 : World :=
  {| fs := ∅; environ := ∅; clock := fun n => Z.of_nat n + 1748736000;
     clock_reads := 0; network := []; trace := [] |}.

Definition args0 : Args :=
  {| args_date := Some {| year := 2025; month := 6; day := 1 |};
     args_out := "./out"; args_aspect := "16:9"; args_fps := 30;
     args_style := "whimsical_astrology"; args_cyberpunk := true |}.

Definition planner0 : ScenePlanner :=
  {| planner_render := {| aspect_ratio := "9:16"; seconds := 8; fps := 24;
                          seed := None |};
     planner_style_tag := "whimsical_astrology" |}.

Definition scene0 : SceneSpec :=
  {| sign := "Aries"; script_text := "A bright day."; prompt := "Base prompt.";
     render := planner_render planner0; style_tag := "whimsical_astrology" |}.

Definition done_without_media : Response :=
  {| status_ok := true; json_name := None; json_done := true;
     json_videoUri := None; body := "" |}.

Definition pending : Response :=
  {| status_ok := true; json_name := None; json_done := false;
     json_videoUri := None; body := "" |}.

Definition accepted (name : string) : Response :=
  {| status_ok := true; json_name := Some name; json_done := false;
     json_videoUri := None; body := "" |}.

Definition world_no_media : World :=
  {| fs := ∅; environ := ∅; clock := fun n => 1748736000;
     clock_reads := 0; network := [done_without_media]; trace := [] |}.

Definition date0 : Date := {| year := 2025; month := 6; day := 1 |}.

Definition pipeline0 : HoroscopeVeoPipeline :=
  pipeline_init (VeoClient.make "demo-key")
                (Some [IdentityTransformer; CyberpunkPunchup]).

Definition scripts0 : list (string * string) :=
  match generate_daily_horoscopes_mock date0 with
  | Ok scripts => scripts
  | Raise _ => []
  end.

Definition render0 : RenderSpec := planner_render planner0.

Definition world_live : World :=
  {| fs := ∅; environ := ∅; clock := fun n => 1748736000;
     clock_reads := 0;
     network := [accepted "operations/aries"; pending; done_without_media];
     trace := [] |}.

Definition result0 : result (list VideoJob) * World :=
  @run bare_builtins generate_daily_horoscopes_mock pipeline0 date0
       (PyPath.of_string "./out") render0 DEFAULT_TEMPLATE
       "whimsical_astrology" world0.

Definition jobs0 : list VideoJob :=
  match result0.1 with
  | Ok jobs => jobs
  | Raise _ => []
  end.



Definition rejected : Response :=
  {| status_ok := false; json_name := None; json_done := false;
     json_videoUri := None; body := "quota" |}.


Definition job7 : VideoJob :=
  {| id := "op-7"; scene := scene0; status := "queued"; video_path := None |}.



(** * Results *)

#[local] Arguments String.append !_ _ / : simpl nomatch.

(** ** Generic facts about results and strings *)

Lemma rbind_ret {A} (r : result A) : rbind r Ok = r.
Proof. by destruct r. Qed.

Lemma rbind_assoc {A B C} (r : result A) (f : A -> result B) (g : B -> result C) :
  rbind (rbind r f) g = rbind r (fun a => rbind (f a) g).
Proof. by destruct r. Qed.

Lemma rbind_raise_inv {A B} (r : result A) (f : A -> result B) :
  (exists e, r = Raise e) -> exists e, rbind r f = Raise e.
Proof. intros [e ->]. by exists e. Qed.

Lemma append_assoc (a b c : string) : (a +:+ b) +:+ c = a +:+ (b +:+ c).
Proof. induction a as [|x a IH]; simpl; [done | by rewrite IH]. Qed.

Lemma append_empty_r (a : string) : a +:+ "" = a.
Proof. induction a as [|x a IH]; simpl; [done | by rewrite IH]. Qed.

Lemma mem_append c (a b : string) :
  PyStr.mem c (a +:+ b) = PyStr.mem c a || PyStr.mem c b.
Proof.
  induction a as [|x a IH]; simpl; [done |].
  destruct (Ascii.eqb c x); [done | apply IH].
Qed.

Lemma brace_free_cons c (s : string) :
  brace_free (String c s) =
  negb (Ascii.eqb c "{") && negb (Ascii.eqb c "}") && brace_free s.
Proof.
  unfold brace_free.
  change (PyStr.mem "{" (String c s))
    with (if Ascii.eqb "{" c then true else PyStr.mem "{" s).
  change (PyStr.mem "}" (String c s))
    with (if Ascii.eqb "}" c then true else PyStr.mem "}" s).
  rewrite (Ascii.eqb_sym "{" c), (Ascii.eqb_sym "}" c).
  destruct (Ascii.eqb c "{"), (Ascii.eqb c "}"), (PyStr.mem "{" s),
    (PyStr.mem "}" s); reflexivity.
Qed.

Lemma brace_free_append (a b : string) :
  brace_free (a +:+ b) = brace_free a && brace_free b.
Proof.
  unfold brace_free. rewrite !mem_append.
  destruct (PyStr.mem "{" a), (PyStr.mem "{" b), (PyStr.mem "}" a),
    (PyStr.mem "}" b); reflexivity.
Qed.

Lemma prefix_append (n b : string) : String.prefix n (n +:+ b) = true.
Proof.
  induction n as [|x n IH]; simpl; [by destruct b |].
  destruct (ascii_dec x x); [apply IH | done].
Qed.

Lemma contains_unfold (n hay : string) :
  PyStr.contains n hay =
  if String.prefix n hay then true
  else match hay with
       | EmptyString => false
       | String _ hay' => PyStr.contains n hay'
       end.
Proof. by destruct hay. Qed.

Lemma contains_here (n b : string) : PyStr.contains n (n +:+ b) = true.
Proof. by rewrite contains_unfold, prefix_append. Qed.

Lemma contains_append_r (n a b : string) :
  PyStr.contains n b = true -> PyStr.contains n (a +:+ b) = true.
Proof.
  intros Hb. induction a as [|x a IH]; [done |].
  rewrite contains_unfold. destruct (String.prefix _ _); [done | exact IH].
Qed.

Lemma prefix_head c n (s : string) :
  String.prefix (String c n) s = true -> exists s', s = String c s'.
Proof.
  destruct s as [|d s']; simpl; [done |].
  destruct (ascii_dec c d) as [->|]; [eauto | done].
Qed.

Lemma contains_mem c n (s : string) :
  PyStr.contains (String c n) s = true -> PyStr.mem c s = true.
Proof.
  induction s as [|d s IH].
  - simpl. done.
  - intros Hc. rewrite contains_unfold in Hc.
    destruct (String.prefix (String c n) (String d s)) eqn:Hp.
    + apply prefix_head in Hp as [s' [= -> ->]]. simpl.
      by rewrite Ascii.eqb_refl.
    + simpl. destruct (Ascii.eqb c d); [done | by apply IH].
Qed.

Lemma brace_free_no_marker (s : string) :
  brace_free s = true -> has_marker s = false.
Proof.
  unfold brace_free, has_marker. intros Hs.
  apply andb_prop in Hs as [Hs _]. apply negb_true_iff in Hs.
  assert (forall h, PyStr.contains (marker h) s = false) as Hno.
  { intros h. destruct (PyStr.contains (marker h) s) eqn:Hc; [|done].
    unfold marker in Hc. simpl in Hc. apply contains_mem in Hc. congruence. }
  by rewrite !Hno.
Qed.

(** Decimal numerals hold digits and at most a sign. *)
Lemma mem_string_of_uint c (d : Decimal.uint) :
  PyStr.is_digit c = false -> PyStr.mem c (NilEmpty.string_of_uint d) = false.
Proof.
  intros Hc. induction d; simpl; [done | ..];
    (match goal with |- context [Ascii.eqb c ?k] =>
       destruct (Ascii.eqb_spec c k) as [->|_]; [discriminate Hc | exact IHd]
     end).
Qed.

Lemma mem_str_of_int c (z : Z) :
  PyStr.is_digit c = false -> c <> "-"%char ->
  PyStr.mem c (PyStr.str_of_int z) = false.
Proof.
  intros Hc Hm.
  assert (forall d, PyStr.mem c (NilZero.string_of_uint d) = false) as Hu.
  { intros d. pose proof (mem_string_of_uint c d Hc) as Hd.
    destruct d; try exact Hd. simpl.
    destruct (Ascii.eqb_spec c "0") as [->|_]; [discriminate Hc | done]. }
  unfold PyStr.str_of_int, NilZero.string_of_int.
  destruct (Z.to_int z) as [d|d]; [apply Hu |].
  simpl. destruct (Ascii.eqb_spec c "-") as [->|_]; [done | apply Hu].
Qed.

Lemma brace_free_str_of_int (z : Z) : brace_free (PyStr.str_of_int z) = true.
Proof. unfold brace_free. by rewrite !mem_str_of_int. Qed.

(** ** [str.format] on templates of text and placeholders *)

Section FormatFacts.
Context `{FormatBuiltins}.
Variable kwargs : list (string * value).
Variable expand_spec : string -> result string.

Local Abbreviation render_scan := (PyFormat.render_scan kwargs expand_spec).

Lemma render_scan_emit st c s t :
  PyFormat.step st c = PyFormat.Emit t ->
  render_scan st (String c s) =
  PyFormat.render_tokens kwargs expand_spec
    (t :: (PyFormat.scan PyFormat.SLit s).1) (PyFormat.scan PyFormat.SLit s).2.
Proof.
  intros Hst. unfold PyFormat.render_scan. simpl. rewrite Hst.
  by destruct (PyFormat.scan PyFormat.SLit s).
Qed.

Lemma render_scan_goto st c s st' :
  PyFormat.step st c = PyFormat.Goto st' ->
  render_scan st (String c s) = render_scan st' s.
Proof. intros Hst. unfold PyFormat.render_scan. simpl. by rewrite Hst. Qed.

Lemma render_scan_pair st s :
  PyFormat.render_tokens kwargs expand_spec
    (PyFormat.scan st s).1 (PyFormat.scan st s).2 = render_scan st s.
Proof. unfold PyFormat.render_scan. by destruct (PyFormat.scan st s). Qed.

Lemma render_text (s rest : string) :
  brace_free s = true ->
  render_scan PyFormat.SLit (s +:+ rest) =
  rbind (render_scan PyFormat.SLit rest) (fun out => Ok (s +:+ out)).
Proof.
  induction s as [|c s IH]; intros Hs.
  - simpl. by rewrite rbind_ret.
  - rewrite brace_free_cons in Hs.
    destruct (Ascii.eqb c "{") eqn:Ho; [done |].
    destruct (Ascii.eqb c "}") eqn:Hc; [done |].
    simpl. rewrite (render_scan_emit _ _ _ (PyFormat.TChar c)).
    + simpl. by rewrite render_scan_pair, IH, rbind_assoc.
    + unfold PyFormat.step. by rewrite Ho, Hc.
Qed.
End FormatFacts.

Section SceneFormat.
Context `{FormatBuiltins}.
Variable self : ScenePlanner.
Variables sign text : string.
Variable expand_spec : string -> result string.

Local Abbreviation kwargs := (scene_kwargs self sign text).
Local Abbreviation values := (placeholder_value self sign text).
Local Abbreviation render_scan := (PyFormat.render_scan kwargs expand_spec).

Lemma render_hole (h : placeholder) (rest : string) :
  render_scan PyFormat.SLit (marker h +:+ rest) =
  rbind (render_scan PyFormat.SLit rest)
        (fun out => Ok (values h +:+ out)).
Proof.
  unfold PyFormat.render_scan.
  destruct h; simpl; destruct (PyFormat.scan PyFormat.SLit rest); reflexivity.
Qed.

Lemma render_pieces (ps : list piece) :
  forallb piece_ok ps = true ->
  render_scan PyFormat.SLit (template_of ps) = Ok (fill values ps).
Proof.
  induction ps as [|[s|h] ps IH];
    cbn [template_of piece_source fill forallb piece_ok]; intros Hok.
  - reflexivity.
  - apply andb_prop in Hok as [Hs Hok].
    by rewrite render_text, IH.
  - by rewrite render_hole, IH.
Qed.
End SceneFormat.

Lemma format_pieces `{FormatBuiltins} self sign text (ps : list piece) :
  forallb piece_ok ps = true ->
  PyFormat.format (template_of ps) (scene_kwargs self sign text) =
  Ok (fill (placeholder_value self sign text) ps).
Proof.
  intros Hok. unfold PyFormat.format.
  exact (render_pieces self sign text _ ps Hok).
Qed.

Lemma default_template_pieces : template_of DEFAULT_PIECES = DEFAULT_TEMPLATE.
Proof. reflexivity. Qed.

Lemma default_pieces_ok : forallb piece_ok DEFAULT_PIECES = true.
Proof. reflexivity. Qed.

(** The textual reading of the contract agrees on these templates. *)
Lemma marker_at_text c (s : string) :
  c <> "{"%char -> marker_at (String c s) = None.
Proof.
  intros Hne. unfold marker_at.
  assert (forall h, String.prefix (marker h) (String c s) = false) as Hp.
  { intros h. unfold marker. cbn [String.append String.prefix].
    destruct (ascii_dec "{" c); congruence. }
  by rewrite !Hp.
Qed.

Lemma substitute_text values (s rest : string) :
  brace_free s = true ->
  substitute_markers 0 values (s +:+ rest) =
  s +:+ substitute_markers 0 values rest.
Proof.
  induction s as [|c s IH]; intros Hs; [done |].
  rewrite brace_free_cons in Hs.
  destruct (Ascii.eqb_spec c "{") as [->|Hne]; [done |].
  destruct (Ascii.eqb c "}"); [done |].
  cbn [String.append substitute_markers].
  by rewrite marker_at_text, IH.
Qed.

Lemma substitute_hole values (h : placeholder) (rest : string) :
  substitute_markers 0 values (marker h +:+ rest) =
  values h +:+ substitute_markers 0 values rest.
Proof.
  destruct h, rest; reflexivity.
Qed.

Lemma substitute_pieces values (ps : list piece) :
  forallb piece_ok ps = true ->
  substitute_markers 0 values (template_of ps) = fill values ps.
Proof.
  induction ps as [|[s|h] ps IH];
    cbn [template_of piece_source fill forallb piece_ok]; intros Hok.
  - reflexivity.
  - apply andb_prop in Hok as [Hs Hok]. by rewrite substitute_text, IH.
  - by rewrite substitute_hole, IH.
Qed.

Lemma fill_contains values (ps : list piece) (h : placeholder) :
  In (Hole h) ps -> PyStr.contains (values h) (fill values ps) = true.
Proof.
  induction ps as [|[s|h'] ps IH]; cbn [fill In]; [done | |].
  - intros [Hx|Hin]; [done |]. apply contains_append_r. by apply IH.
  - intros [[= ->]|Hin]; [apply contains_here |].
    apply contains_append_r. by apply IH.
Qed.

Lemma fill_brace_free values (ps : list piece) :
  forallb piece_ok ps = true ->
  (forall h, In (Hole h) ps -> brace_free (values h) = true) ->
  brace_free (fill values ps) = true.
Proof.
  induction ps as [|[s|h] ps IH]; cbn [fill forallb piece_ok];
    intros Hok Hv; [done | |].
  - apply andb_prop in Hok as [Hs Hok].
    rewrite brace_free_append, Hs, IH; [done | done |].
    intros h Hin. apply Hv. by right.
  - rewrite brace_free_append, Hv, IH; [done | done | | by left].
    intros h' Hin. apply Hv. by right.
Qed.

(** ** Fields outside the recognized set *)

Section UnknownFields.
Context `{FormatBuiltins}.
Variable self : ScenePlanner.
Variables sign text : string.

Local Abbreviation kwargs := (scene_kwargs self sign text).

Lemma get_field_object_unknown (first : string) :
  ~ In first RECOGNIZED ->
  exists e, PyFormat.get_field_object kwargs first = Raise e.
Proof.
  intros Hun. unfold PyFormat.get_field_object.
  destruct (PyStr.all_digits first).
  - destruct (PyFormat.get_integer 0 first); simpl; eauto.
  - cbn [PyFormat.lookup_kw scene_kwargs].
    repeat match goal with
           | |- context [String.eqb ?k first] =>
               destruct (String.eqb_spec k first) as [<-|_];
               [exfalso; apply Hun; unfold RECOGNIZED; simpl; tauto |]
           end.
    eauto.
Qed.

Lemma render_field_unknown expand_spec name conv spec ex :
  ~ In (PyFormat.first_part name) RECOGNIZED ->
  exists e, PyFormat.render_field kwargs expand_spec name conv spec ex = Raise e.
Proof.
  intros Hun. unfold PyFormat.render_field, PyFormat.first_part in *.
  destruct (PyFormat.field_name_split name) as [first path]. simpl in Hun.
  destruct (get_field_object_unknown first Hun) as [e ->]. simpl. eauto.
Qed.

Lemma render_field_nested expand_spec name conv spec :
  (exists e, expand_spec spec = Raise e) ->
  exists e, PyFormat.render_field kwargs expand_spec name conv spec true = Raise e.
Proof.
  intros [e He]. unfold PyFormat.render_field.
  destruct (PyFormat.field_name_split name) as [first path].
  destruct (PyFormat.get_field_object kwargs first) as [v|e1]; simpl; [|eauto].
  destruct path, conv; simpl; try (destruct (py_resolve _ _ _); simpl);
    rewrite ?He; simpl; eauto.
Qed.

Lemma render_tokens_unknown expand_spec nested (ts : list PyFormat.token)
    stop name :
  (forall spec, In name (nested spec) -> exists e, expand_spec spec = Raise e) ->
  In name (token_fields nested ts) -> ~ In name RECOGNIZED ->
  exists e, PyFormat.render_tokens kwargs expand_spec ts stop = Raise e.
Proof.
  intros Hnested Hin Hun.
  induction ts as [|[c|fname conv spec ex] ts IH];
    cbn [token_fields PyFormat.render_tokens] in *.
  - destruct Hin.
  - destruct (IH Hin) as [e ->]. simpl. eauto.
  - apply in_app_or in Hin as [[<-|Hin]|Hin].
    + destruct (render_field_unknown expand_spec fname conv spec ex Hun)
        as [e ->].
      simpl. eauto.
    + destruct ex; [|destruct Hin].
      destruct (render_field_nested expand_spec fname conv spec
                  (Hnested _ Hin)) as [e ->].
      simpl. eauto.
    + destruct (IH Hin) as [e He].
      destruct (PyFormat.render_field _ _ _ _ _ _); simpl; [|eauto].
      rewrite He. simpl. eauto.
Qed.

Lemma build_string_unknown depth levels template name :
  In name (referenced_fields levels template) -> ~ In name RECOGNIZED ->
  exists e, PyFormat.build_string depth kwargs template = Raise e.
Proof.
  revert levels template.
  induction depth as [|d IH]; intros levels template Hin Hun; simpl; [eauto |].
  unfold PyFormat.render_scan.
  destruct levels as [|n]; cbn [referenced_fields] in Hin;
    unfold PyFormat.tokenize in Hin;
    destruct (PyFormat.scan PyFormat.SLit template) as [ts stop];
    cbn [fst] in Hin.
  - eapply render_tokens_unknown; [| exact Hin | exact Hun]. intros ? [].
  - eapply render_tokens_unknown; [| exact Hin | exact Hun].
    intros spec Hs. exact (IH n spec Hs Hun).
Qed.
End UnknownFields.

(** ** Transformer chain *)

Lemma apply_transformers_app (ts ts' : list PromptTransformer) scene :
  apply_transformers (ts ++ ts') scene =
  apply_transformers ts' (apply_transformers ts scene).
Proof. revert scene. induction ts as [|t ts IH]; intros scene; simpl; auto. Qed.

Lemma apply_transformers_fields (ts : list PromptTransformer) scene :
  apply_transformers ts scene =
  set_prompt scene (prompt (apply_transformers ts scene)).
Proof.
  revert scene. induction ts as [|t ts IH]; intros scene; simpl.
  - by destruct scene.
  - rewrite IH at 1. reflexivity.
Qed.

Lemma apply_transformers_sign (ts : list PromptTransformer) scene :
  sign (apply_transformers ts scene) = sign scene.
Proof. by rewrite apply_transformers_fields. Qed.

(** ** The claims about the planner and the chain *)

(** C4, as worded, fails: [str.format] does not scan the substituted values
    again, so a caption that holds the text of a marker leaves that marker
    in the prompt built from the default template.  (An escaped marker in
    the template, [{{sign}}], is left as [{sign}] in the same way.) *)
Lemma placeholders_all_resolved_fails : ~ placeholders_all_resolved.
Proof.
  intros Hclaim.
  destruct (Hclaim bare_builtins planner0 "Aries" "{sign}" DEFAULT_TEMPLATE)
    as (scene & Hbuild & _ & _ & Hnone); [reflexivity |].
  vm_compute in Hbuild. injection Hbuild as <-.
  vm_compute in Hnone. discriminate Hnone.
Qed.

(** C4, amended: for every template made of brace-free literal text and
    the four placeholders (the default template is one), [build_scene]
    returns the scene whose prompt is the template with every placeholder
    replaced by the value of its field; the prompt holds the value of each
    placeholder the template uses; and when aspect ratio, sign and caption
    hold no brace, neither does the prompt, so no marker is left. *)
Theorem build_scene_fills_placeholders `{FormatBuiltins}
    (self : ScenePlanner) (sign text : string) (ps : list piece) :
  forallb piece_ok ps = true ->
  let values := placeholder_value self sign text in
  exists scene,
    build_scene self sign text (template_of ps) = Ok scene /\
    scene = {| sign := sign; script_text := text; prompt := fill values ps;
               render := planner_render self;
               style_tag := planner_style_tag self |} /\
    prompt scene = substitute_markers 0 values (template_of ps) /\
    (forall h, In (Hole h) ps ->
               PyStr.contains (values h) (prompt scene) = true) /\
    (brace_free (aspect_ratio (planner_render self)) = true ->
     brace_free sign = true -> brace_free text = true ->
     brace_free (prompt scene) = true /\ has_marker (prompt scene) = false).
Proof.
  intros Hok values. eexists. split; [|split; [reflexivity |]].
  - unfold build_scene. by rewrite format_pieces.
  - cbn [prompt]. split; [by rewrite substitute_pieces |]. split.
    + intros h Hin. by apply fill_contains.
    + intros Ha Hs Ht.
      assert (brace_free (fill values ps) = true) as Hfree.
      { apply fill_brace_free; [done |]. intros [] _; simpl; try done.
        apply brace_free_str_of_int. }
      split; [done | by apply brace_free_no_marker].
Qed.

Lemma build_scene_fills_placeholders_witness :
  exists scene,
    @build_scene bare_builtins planner0 "Aries" "A bright day." DEFAULT_TEMPLATE
      = Ok scene /\
    PyStr.contains "A bright day." (prompt scene) = true /\
    has_marker (prompt scene) = false.
Proof.
  destruct (@build_scene_fills_placeholders bare_builtins planner0 "Aries"
              "A bright day." DEFAULT_PIECES eq_refl)
    as (scene & Hbuild & _ & _ & Hvals & Hfree).
  exists scene. split; [exact Hbuild |]. split.
  - apply (Hvals PCaption). simpl. tauto.
  - apply Hfree; reflexivity.
Defined.

(** C5: a template that refers to a field outside aspect, sign, caption
    and seconds (at the top level or nested in a format spec) makes
    [build_scene] raise instead of returning a scene, whatever else the
    template holds, and the world is as it was. *)
Theorem build_scene_unknown_placeholder `{FormatBuiltins}
    (self : ScenePlanner) (sign text template : string)
    (levels : nat) (name : string) :
  In name (referenced_fields levels template) ->
  ~ In name RECOGNIZED ->
  exists e,
    build_scene self sign text template = Raise e /\
    forall w, lift (build_scene self sign text template) w = (Raise e, w).
Proof.
  intros Hin Hun.
  destruct (build_string_unknown self sign text 2 levels template name Hin Hun)
    as [e He].
  exists e. unfold lift, build_scene, PyFormat.format. by rewrite He.
Qed.

Lemma build_scene_unknown_placeholder_witness :
  exists e,
    @build_scene bare_builtins planner0 "Aries" "A bright day."
      "{sign} under {constellation}" = Raise e.
Proof.
  destruct (@build_scene_unknown_placeholder bare_builtins planner0 "Aries"
              "A bright day." "{sign} under {constellation}" 0 "constellation")
    as (e & He & _).
  - vm_compute. tauto.
  - vm_compute. intros [?|[?|[?|[?|[]]]]]; discriminate.
  - by exists e.
Defined.

(** C6, as worded, fails: the second transformer is called with the scene
    whose prompt the first has already replaced, so a transformer that
    reads [scene.prompt] does not see the base prompt. *)
Lemma chain_is_manual_composition_fails : ~ chain_is_manual_composition.
Proof.
  intros Hclaim.
  specialize (Hclaim CyberpunkPunchup EchoScenePrompt scene0).
  vm_compute in Hclaim. discriminate Hclaim.
Qed.

(** C6, amended: the chain applies the transformers in the configured
    order, each one being given the prompt the previous one returned and
    the scene that already carries that prompt; only the prompt field of
    the scene changes.  For [A, B] the final prompt is
    [B(A(p, s), s')] with [s'] the scene [s] after [A]; it is
    [B(A(p, s), s)] whenever [B] does not read the prompt field of the
    scene, as neither built-in transformer does. *)
Theorem transformer_chain_in_order (ts : list PromptTransformer)
    (A B : PromptTransformer) (scene : SceneSpec) :
  let before := apply_transformers ts scene in
  prompt (apply_transformers (ts ++ [A]) scene) = A (prompt before) before /\
  before = set_prompt scene (prompt before) /\
  prompt (apply_transformers [A; B] scene) =
    B (A (prompt scene) scene) (set_prompt scene (A (prompt scene) scene)) /\
  (ignores_scene_prompt B ->
   prompt (apply_transformers [A; B] scene) = B (A (prompt scene) scene) scene).
Proof.
  intros before. split; [|split; [|split]].
  - by rewrite apply_transformers_app.
  - apply apply_transformers_fields.
  - reflexivity.
  - intros HB. simpl. rewrite HB. by destruct scene.
Qed.

Lemma transformer_chain_in_order_witness :
  prompt (apply_transformers [IdentityTransformer; CyberpunkPunchup] scene0) =
  CyberpunkPunchup (IdentityTransformer (prompt scene0) scene0) scene0.
Proof.
  apply (transformer_chain_in_order [] IdentityTransformer CyberpunkPunchup scene0).
  intros text scene p. reflexivity.
Defined.

(** ** The format-string grammar on small inputs

    Each of these is what CPython 3.11 answers for the same call. *)

Example format_escaped_braces :
  @PyFormat.format bare_builtins "{{sign}} for {sign}"
    (scene_kwargs planner0 "Aries" "cap") = Ok "{sign} for Aries".
Proof. reflexivity. Qed.

Example format_int_field :
  @PyFormat.format bare_builtins "{seconds}s at {aspect}"
    (scene_kwargs planner0 "Aries" "cap") = Ok "8s at 9:16".
Proof. reflexivity. Qed.

Example format_single_open :
  @PyFormat.format bare_builtins "a{" (scene_kwargs planner0 "Aries" "cap") =
  Raise (ValueError "Single '{' encountered in format string").
Proof. reflexivity. Qed.

Example format_single_close :
  @PyFormat.format bare_builtins "{sign}}" (scene_kwargs planner0 "Aries" "cap") =
  Raise (ValueError "Single '}' encountered in format string").
Proof. reflexivity. Qed.

Example format_unclosed_field :
  @PyFormat.format bare_builtins "{sign" (scene_kwargs planner0 "Aries" "cap") =
  Raise (ValueError "expected '}' before end of string").
Proof. reflexivity. Qed.

Example format_unknown_name :
  @PyFormat.format bare_builtins "{unknown} }"
    (scene_kwargs planner0 "Aries" "cap") = Raise (KeyError "unknown").
Proof. reflexivity. Qed.

Example format_positional_field :
  @PyFormat.format bare_builtins "{}" (scene_kwargs planner0 "Aries" "cap") =
  Raise (IndexError "Replacement index 0 out of range for positional args tuple").
Proof. reflexivity. Qed.

Example format_too_many_digits :
  @PyFormat.format bare_builtins "{9223372036854775808}"
    (scene_kwargs planner0 "Aries" "cap") =
  Raise (ValueError "Too many decimal digits in format string").
Proof. reflexivity. Qed.

Example format_nested_unknown :
  @PyFormat.format bare_builtins "{sign:{unknown}}"
    (scene_kwargs planner0 "Aries" "cap") = Raise (KeyError "unknown").
Proof. reflexivity. Qed.

Example format_nested_too_deep :
  @PyFormat.format bare_builtins "{sign:{caption:{aspect}}}"
    (scene_kwargs planner0 "Aries" "cap") =
  Raise (ValueError "Max string recursion exceeded").
Proof. reflexivity. Qed.

Example format_bad_conversion_end :
  @PyFormat.format bare_builtins "{sign!" (scene_kwargs planner0 "Aries" "cap") =
  Raise (ValueError "end of string while looking for conversion specifier").
Proof. reflexivity. Qed.

Example referenced_fields_nested :
  referenced_fields 2 "{sign:{unknown}} {a.b} {{c}}" = ["sign"; "unknown"; "a"].
Proof. reflexivity. Qed.

Example substitute_escaped_differs :
  substitute_markers 0 (placeholder_value planner0 "Aries" "cap") "{{sign}}" =
  "{Aries}".
Proof. reflexivity. Qed.

Example path_of_job_file :
  PyPath.str (PyPath.of_string "./out" // "renders" // "veo_aries_1.mp4") =
  "out/renders/veo_aries_1.mp4".
Proof. reflexivity. Qed.

Example path_absolute_part :
  PyPath.of_string "out" // "/etc/x.txt" = ("/", ["etc"; "x.txt"]).
Proof. reflexivity. Qed.

Example path_with_slash :
  PyPath.of_string "out" // "a/b.txt" = ("", ["out"; "a"; "b.txt"]).
Proof. reflexivity. Qed.

Example isoformat_pads : PyDate.isoformat {| year := 999; month := 1; day := 5 |} = "0999-01-05".
Proof. reflexivity. Qed.

Example strftime_long_example : PyDate.strftime_long date0 = "June 01, 2025".
Proof. reflexivity. Qed.

Example cyberpunk_prompt_has_neon :
  PyStr.contains "neon signage"
    (prompt (apply_transformers [IdentityTransformer; CyberpunkPunchup] scene0))
  = true.
Proof. reflexivity. Qed.

(** ** [str.strip] on white space outside ASCII

    The values are those of CPython 3 on the same strings, written as
    UTF-8 bytes. *)

(** [" hi \n".strip()] with U+00A0 in front and U+2003 behind. *)
Example strip_no_break_and_em_space :
  HoroscopeWriter.strip
    (HoroscopeWriter.bytes [194; 160; 32; 104; 105; 226; 128; 131; 10]%nat)
  = "hi".
Proof. vm_compute. reflexivity. Qed.

(** U+3000 at both ends goes; U+200B, which is no white space, stays. *)
Example strip_ideographic_space :
  HoroscopeWriter.strip
    (HoroscopeWriter.bytes [227; 128; 128; 120; 227; 128; 128]%nat) = "x".
Proof. vm_compute. reflexivity. Qed.

Example strip_keeps_zero_width_space :
  HoroscopeWriter.strip
    (HoroscopeWriter.bytes [32; 226; 128; 139; 122; 226; 128; 139; 32]%nat)
  = HoroscopeWriter.bytes [226; 128; 139; 122; 226; 128; 139]%nat.
Proof. vm_compute. reflexivity. Qed.

(** White space inside is kept; a string of white space only becomes
    empty. *)
Example strip_keeps_inner_space : HoroscopeWriter.strip " a b " = "a b".
Proof. vm_compute. reflexivity. Qed.

Example strip_all_space :
  HoroscopeWriter.strip
    (HoroscopeWriter.bytes [32; 9; 194; 133; 226; 128; 168; 13]%nat) = "".
Proof. vm_compute. reflexivity. Qed.

Example whitespace_count : length HoroscopeWriter.WHITESPACE = 29%nat.
Proof. reflexivity. Qed.

(** ** Paths and the file system *)

Lemma div_simple (p : Path) (s : string) :
  simple_name s = true -> p // s = PyPath.child p s.
Proof.
  unfold simple_name, PyPath.div, PyPath.child. intros Hs.
  apply andb_prop in Hs as [Hroot Hparts].
  apply String.eqb_eq in Hroot. apply bool_decide_eq_true in Hparts.
  by rewrite Hroot, Hparts.
Qed.

Lemma child_inj (p q : Path) (x y : string) :
  PyPath.child p x = PyPath.child q y -> p = q /\ x = y.
Proof.
  destruct p as [r l], q as [r' l']. unfold PyPath.child. simpl.
  intros [= -> Hl]. apply app_inj_tail in Hl as [-> ->]. done.
Qed.

Lemma child_ne_self (p : Path) (x : string) : PyPath.child p x <> p.
Proof.
  destruct p as [r l]. unfold PyPath.child. simpl. intros [= Hl].
  apply (f_equal length) in Hl. rewrite length_app in Hl. simpl in Hl. lia.
Qed.

Lemma child_child_ne (p : Path) (x y z : string) :
  PyPath.child (PyPath.child p x) y <> PyPath.child p z.
Proof.
  intros Heq. apply child_inj in Heq as [Heq _].
  by apply child_ne_self in Heq.
Qed.

Lemma parent_child (p : Path) (x : string) :
  PyPath.parent (PyPath.child p x) = p.
Proof.
  destruct p as [r l]. unfold PyPath.parent, PyPath.child. simpl.
  by rewrite removelast_last.
Qed.

Lemma node_at_child (f : gmap Path node) (p : Path) (x : string) :
  PyOS.node_at f (PyPath.child p x) = f !! PyPath.child p x.
Proof.
  unfold PyOS.node_at. destruct p as [r l]. unfold PyPath.child at 1. simpl.
  destruct (l ++ [x])%list eqn:E; [|done].
  by apply app_eq_nil in E as [_ ?].
Qed.

Lemma is_dir_insert_ne (f : gmap Path node) (p q : Path) (n : node) :
  q <> p -> PyOS.is_dir (<[q := n]> f) p = PyOS.is_dir f p.
Proof.
  intros Hne. unfold PyOS.is_dir, PyOS.node_at.
  destruct p.2; [done |]. by rewrite lookup_insert_ne.
Qed.

Lemma is_dir_child (f : gmap Path node) (p : Path) (x : string) :
  PyOS.is_dir f (PyPath.child p x) = true <-> f !! PyPath.child p x = Some Dir.
Proof.
  unfold PyOS.is_dir. rewrite node_at_child.
  destruct (f !! PyPath.child p x) as [[|c]|]; split; intros; done.
Qed.

Lemma is_dir_node_at (f : gmap Path node) (p : Path) :
  PyOS.is_dir f p = true -> PyOS.node_at f p = Some Dir.
Proof.
  unfold PyOS.is_dir. by destruct (PyOS.node_at f p) as [[|c]|].
Qed.

Lemma write_file_child (f : gmap Path node) (p : Path) (x : string) (c : content) :
  PyOS.is_dir f p = true ->
  PyOS.is_dir f (PyPath.child p x) = false ->
  PyOS.write_file f (PyPath.child p x) c = Ok (<[PyPath.child p x := File c]> f).
Proof.
  intros Hp Hx. unfold PyOS.write_file.
  rewrite parent_child, (is_dir_node_at f p Hp).
  unfold PyOS.is_dir in Hx.
  by destruct (PyOS.node_at f (PyPath.child p x)) as [[|c']|].
Qed.

Lemma mkdir_exist_ok_child (f : gmap Path node) (p : Path) (x : string) :
  PyOS.is_dir f p = true ->
  absent_or_dir f (PyPath.child p x) = true ->
  PyOS.mkdir_exist_ok f (PyPath.child p x) = Ok (<[PyPath.child p x := Dir]> f).
Proof.
  intros Hp Hx. unfold PyOS.mkdir_exist_ok, PyOS.os_mkdir, PyOS.is_dir.
  unfold absent_or_dir in Hx. rewrite parent_child, (is_dir_node_at f p Hp).
  rewrite node_at_child in *.
  destruct (f !! PyPath.child p x) as [[|c]|] eqn:E; [| done | done].
  by rewrite insert_id.
Qed.


Lemma mkdir_exist_ok_is_dir (f f' : gmap Path node) (p : Path) :
  PyOS.mkdir_exist_ok f p = Ok f' -> PyOS.is_dir f' p = true.
Proof.
  unfold PyOS.mkdir_exist_ok, PyOS.os_mkdir.
  assert (PyOS.node_at f p = None -> PyOS.is_dir (<[p := Dir]> f) p = true) as Hnew.
  { unfold PyOS.is_dir, PyOS.node_at. destruct p.2; [done |].
    by rewrite lookup_insert_eq. }
  destruct (PyOS.node_at f p) as [n|] eqn:Hn.
  - destruct (PyOS.is_dir f p) eqn:Hd; [|done]. by intros [= <-].
  - destruct (PyOS.node_at f (PyPath.parent p)) as [[|c]|]; simpl;
      try destruct (PyOS.is_dir f p) eqn:Hd; try done; intros [= <-]; auto.
Qed.

Lemma mkdir_parents_rev_unfold (root : string) (rparts : list string)
    (f : gmap Path node) :
  PyOS.mkdir_parents_rev root rparts f =
  let p := (root, rev rparts) in
  match PyOS.os_mkdir f p with
  | Ok f' => Ok f'
  | Raise (FileNotFoundError s) =>
      match rparts with
      | [] => Raise (FileNotFoundError s)
      | _ :: rparents =>
          rbind (PyOS.mkdir_parents_rev root rparents f) (fun f1 =>
          PyOS.mkdir_exist_ok f1 p)
      end
  | Raise e => if PyOS.is_dir f p then Ok f else Raise e
  end.
Proof. by destruct rparts. Qed.

Lemma mkdir_parents_existing (f : gmap Path node) (p : Path) :
  PyOS.is_dir f p = true -> PyOS.mkdir_parents_exist_ok f p = Ok f.
Proof.
  intros Hd. unfold PyOS.mkdir_parents_exist_ok.
  rewrite mkdir_parents_rev_unfold. cbv zeta. rewrite rev_involutive.
  destruct p as [r l]. simpl. unfold PyOS.os_mkdir.
  rewrite (is_dir_node_at _ _ Hd). by rewrite Hd.
Qed.

Lemma mkdir_parents_rev_is_dir (root : string) (rparts : list string)
    (f f' : gmap Path node) :
  PyOS.mkdir_parents_rev root rparts f = Ok f' ->
  PyOS.is_dir f' (root, rev rparts) = true.
Proof.
  rewrite mkdir_parents_rev_unfold. cbv zeta.
  destruct (PyOS.os_mkdir f (root, rev rparts)) as [f2|e] eqn:Hmk.
  - intros [= <-]. apply (mkdir_exist_ok_is_dir f).
    unfold PyOS.mkdir_exist_ok. by rewrite Hmk.
  - destruct e; try (destruct (PyOS.is_dir f (root, rev rparts)) eqn:Hd;
                     [by intros [= <-] | done]).
    destruct rparts as [|x rparents]; [done |].
    destruct (PyOS.mkdir_parents_rev root rparents f) as [f1|e1]; [|done].
    simpl. apply mkdir_exist_ok_is_dir.
Qed.

Lemma mkdir_parents_is_dir (f f' : gmap Path node) (p : Path) :
  PyOS.mkdir_parents_exist_ok f p = Ok f' -> PyOS.is_dir f' p = true.
Proof.
  unfold PyOS.mkdir_parents_exist_ok. intros Hmk.
  apply mkdir_parents_rev_is_dir in Hmk. rewrite rev_involutive in Hmk.
  by destruct p.
Qed.



(** ** The steps of a run *)

Lemma mkdir_step (p : Path) (parents : bool) (w : World) (f' : gmap Path node) :
  (if parents then PyOS.mkdir_parents_exist_ok (fs w) p
   else PyOS.mkdir_exist_ok (fs w) p) = Ok f' ->
  PyOS.mkdir p parents w =
  (Ok tt, {| fs := f'; environ := environ w; clock := clock w;
             clock_reads := clock_reads w; network := network w;
             trace := trace w ++ [EvMkdir p] |}).
Proof.
  intros Hop. unfold PyOS.mkdir, bind, log, PyOS.on_fs. simpl. by rewrite Hop.
Qed.

Lemma write_step (p : Path) (c : content) (w : World) (f' : gmap Path node) :
  PyOS.write_file (fs w) p c = Ok f' ->
  PyOS.write p c w =
  (Ok tt, {| fs := f'; environ := environ w; clock := clock w;
             clock_reads := clock_reads w; network := network w;
             trace := trace w ++ [EvWrite p c] |}).
Proof.
  intros Hop. unfold PyOS.write, bind, log, PyOS.on_fs. simpl. by rewrite Hop.
Qed.

Lemma simple_prompts : simple_name "prompts" = true.
Proof. reflexivity. Qed.

Lemma simple_renders : simple_name "renders" = true.
Proof. reflexivity. Qed.

Lemma simple_manifest : simple_name "manifest.json" = true.
Proof. reflexivity. Qed.

Lemma prompt_file_child (out_dir : Path) (scene : SceneSpec) :
  simple_name (sign scene +:+ ".txt") = true ->
  prompt_file out_dir scene =
  PyPath.child (PyPath.child out_dir "prompts") (sign scene +:+ ".txt").
Proof.
  intros Hs. unfold prompt_file.
  by rewrite (div_simple _ "prompts"), (div_simple _ _ Hs).
Qed.

Lemma is_dir_insert_file (f : gmap Path node) (p q : Path) (c : content) :
  PyOS.is_dir f p = false -> PyOS.is_dir (<[q := File c]> f) p = false.
Proof.
  unfold PyOS.is_dir, PyOS.node_at. destruct p.2; [done |].
  destruct (decide (q = p)) as [->|Hne].
  - by rewrite lookup_insert_eq.
  - by rewrite lookup_insert_ne.
Qed.

Lemma write_all_cons (out_dir : Path) (scene : SceneSpec)
    (scenes : list SceneSpec) (f : gmap Path node) :
  write_all out_dir (scene :: scenes) f =
  write_all out_dir scenes
    (<[prompt_file out_dir scene := File (TextFile (prompt scene))]> f).
Proof. reflexivity. Qed.

Lemma lookup_write_all_other (out_dir : Path) (scenes : list SceneSpec)
    (f : gmap Path node) (p : Path) :
  Forall (fun s => prompt_file out_dir s <> p) scenes ->
  write_all out_dir scenes f !! p = f !! p.
Proof.
  revert f. induction scenes as [|s scenes IH]; intros f Hne; [done |].
  apply Forall_cons in Hne as [Hs Hne].
  by rewrite write_all_cons, IH, lookup_insert_ne.
Qed.


Lemma is_dir_lookup (f g : gmap Path node) (p : Path) :
  g !! p = f !! p -> PyOS.is_dir g p = PyOS.is_dir f p.
Proof.
  intros Heq. unfold PyOS.is_dir, PyOS.node_at. destruct p.2; [done |].
  by rewrite Heq.
Qed.

Lemma write_prompts_ok (ts : list PromptTransformer) (out_dir : Path)
    (scenes : list SceneSpec) (w : World) :
  PyOS.is_dir (fs w) (PyPath.child out_dir "prompts") = true ->
  Forall (fun s =>
            simple_name (sign s +:+ ".txt") = true /\
            PyOS.is_dir (fs w) (PyPath.child (PyPath.child out_dir "prompts")
                                             (sign s +:+ ".txt")) = false)
         scenes ->
  let scenes' := map (apply_transformers ts) scenes in
  write_prompts ts out_dir scenes w =
  (Ok scenes',
   {| fs := write_all out_dir scenes' (fs w); environ := environ w;
      clock := clock w; clock_reads := clock_reads w; network := network w;
      trace := trace w ++ map (prompt_event out_dir) scenes' |}).
Proof.
  revert w. induction scenes as [|s scenes IH]; intros w Hdir Hall; simpl.
  - unfold ret. rewrite app_nil_r. by destruct w.
  - apply Forall_cons in Hall as [[Hsimple Hfree] Hall].
    assert (simple_name (sign (apply_transformers ts s) +:+ ".txt") = true)
      as Hsimple' by by rewrite apply_transformers_sign.
    unfold bind at 1.
    rewrite (write_step _ _ _
               (<[prompt_file out_dir (apply_transformers ts s) :=
                    File (TextFile (prompt (apply_transformers ts s)))]> (fs w))).
    2:{ rewrite (prompt_file_child _ _ Hsimple'), apply_transformers_sign.
        by apply write_file_child. }
    unfold bind at 1. rewrite IH; cbn [fs environ clock clock_reads network trace].
    + unfold ret. by rewrite <- app_assoc.
    + rewrite is_dir_insert_ne; [done |].
      rewrite (prompt_file_child _ _ Hsimple'). apply child_ne_self.
    + eapply Forall_impl; [exact Hall |]. intros s' [Hs' Hd']. split; [done |].
      by apply is_dir_insert_file.
Qed.

Lemma run_jobs_stub_ok (key : string) (out_dir : Path)
    (scenes : list SceneSpec) (w : World) :
  PyOS.is_dir (fs w) (out_dir // "renders") = true ->
  let jobs := stub_jobs out_dir (clock w) (clock_reads w) scenes in
  run_jobs (VeoClient.make key) out_dir scenes w =
  (Ok jobs,
   {| fs := fs w; environ := environ w; clock := clock w;
      clock_reads := clock_reads w + length scenes; network := network w;
      trace := trace w ++ concat (map (job_events out_dir) jobs) |}).
Proof.
  revert w. induction scenes as [|s scenes IH]; intros w Hdir; simpl.
  - unfold run_jobs, ret. simpl. rewrite app_nil_r, Nat.add_0_r. by destruct w.
  - unfold run_jobs in *. cbn [for_collect]. unfold bind at 1 2.
    cbn [submit VeoClient.make]. unfold VeoClient.submit, bind at 1.
    unfold PyOS.utc_timestamp, ret at 1.
    unfold bind at 1, log at 1. unfold bind at 1.
    cbn [poll_until_done VeoClient.make id]. unfold VeoClient.poll_until_done.
    unfold bind at 1.
    rewrite (mkdir_step _ true _ (fs w)); cbn [fs];
      [|by apply mkdir_parents_existing].
    unfold ret at 1, bind at 1, log at 1, ret at 1.
    cbn [fs environ clock clock_reads network trace with_clock_reads with_trace id
         status].
    unfold bind at 1.
    rewrite IH; cbn [fs environ clock clock_reads network trace with_trace];
      [|exact Hdir].
    unfold ret. cbn [id scene status video_path].
    f_equal. f_equal; [lia |].
    unfold job_events at 2. cbn [id status]. rewrite <- !app_assoc. reflexivity.
Qed.

Lemma build_scene_pieces `{FormatBuiltins} (self : ScenePlanner)
    (ps : list piece) (sign text : string) :
  forallb piece_ok ps = true ->
  build_scene self sign text (template_of ps) =
  Ok (built_scene self ps (sign, text)).
Proof. intros Hok. unfold build_scene. by rewrite format_pieces. Qed.

Lemma comprehension_pieces `{FormatBuiltins} (self : ScenePlanner)
    (ps : list piece) (scripts : list (string * string)) :
  forallb piece_ok ps = true ->
  comprehension scripts
    (fun '(sign, text) => build_scene self sign text (template_of ps)) =
  Ok (map (built_scene self ps) scripts).
Proof.
  intros Hok. induction scripts as [|[s t] scripts IH]; simpl; [done |].
  by rewrite build_scene_pieces, IH.
Qed.

(** ** A whole run with the second client *)

Ltac norm_world :=
  cbn [fs environ clock clock_reads network trace with_fs with_trace
       with_network with_clock_reads].

Lemma child_prompts_ne_renders (p : Path) :
  PyPath.child p "prompts" <> PyPath.child p "renders".
Proof. intros Heq. by apply child_inj in Heq as [_ ?]. Qed.

Lemma not_dir_is_dir_false (f : gmap Path node) (p : Path) :
  negb (PyOS.is_dir f p) = true -> PyOS.is_dir f p = false.
Proof. by destruct (PyOS.is_dir f p). Qed.

Lemma absent_or_dir_lookup (f g : gmap Path node) (p : Path) :
  g !! p = f !! p -> absent_or_dir g p = absent_or_dir f p.
Proof.
  intros Heq. unfold absent_or_dir, PyOS.node_at. destruct p.2; [done |].
  by rewrite Heq.
Qed.

Section StubRun.
Context `{FormatBuiltins}.
Variable generate : Date -> result (list (string * string)).
Variables (key : string) (ts : list PromptTransformer).
Variables (date : Date) (out_dir : Path) (render : RenderSpec).
Variables (ps : list piece) (style : string).
Variable scripts : list (string * string).

Local Abbreviation planner :=
  {| planner_render := render; planner_style_tag := style |}.
Local Abbreviation scenes :=
  (map (apply_transformers ts) (map (built_scene planner ps) scripts)).
Local Abbreviation self :=
  {| veo := VeoClient.make key; transformers := ts |}.
Local Abbreviation prompts := (PyPath.child out_dir "prompts").
Local Abbreviation renders := (PyPath.child out_dir "renders").

Hypothesis Hgen : generate date = Ok scripts.
Hypothesis Hps : forallb piece_ok ps = true.
Hypothesis Hnames :
  forallb (fun s => simple_name (s +:+ ".txt")) (map fst scripts) = true.

Lemma scenes_simple :
  Forall (fun s => simple_name (sign s +:+ ".txt") = true) scenes.
Proof.
  apply Forall_forall. intros s Hs.
  apply list_elem_of_In, in_map_iff in Hs as (s0 & <- & Hs0).
  apply in_map_iff in Hs0 as (sc & <- & Hsc).
  rewrite apply_transformers_sign. cbn [sign built_scene].
  rewrite forallb_forall in Hnames. apply Hnames. by apply in_map.
Qed.


Lemma prompt_files_children :
  Forall (fun s => exists x, prompt_file out_dir s =
                     PyPath.child (PyPath.child out_dir "prompts") x) scenes.
Proof.
  eapply Forall_impl; [exact scenes_simple |]. intros s Hs.
  eexists. by apply prompt_file_child.
Qed.

Lemma lookup_write_all_scenes (f : gmap Path node) (p : Path) :
  (forall x, p <> PyPath.child (PyPath.child out_dir "prompts") x) ->
  write_all out_dir scenes f !! p = f !! p.
Proof.
  intros Hp. apply lookup_write_all_other.
  eapply Forall_impl; [exact prompt_files_children |].
  intros s [x ->] Heq. by apply (Hp x).
Qed.

Lemma run_stub_ok (w : World) (f1 : gmap Path node) :
  PyOS.mkdir_parents_exist_ok (fs w) out_dir = Ok f1 ->
  absent_or_dir f1 (out_dir // "prompts") = true ->
  absent_or_dir f1 (out_dir // "renders") = true ->
  forallb (fun sign =>
             negb (PyOS.is_dir f1 (out_dir // "prompts" // (sign +:+ ".txt"))))
          (map fst scripts) = true ->
  negb (PyOS.is_dir f1 (out_dir // "manifest.json")) = true ->
  let jobs := stub_jobs out_dir (clock w) (clock_reads w) scenes in
  let m := make_manifest date render jobs in
  run generate self date out_dir render (template_of ps) style w =
  (Ok jobs,
   {| fs := final_fs out_dir scenes m f1; environ := environ w;
      clock := clock w; clock_reads := clock_reads w + length scenes;
      network := network w;
      trace := trace w ++
               [EvMkdir out_dir; EvMkdir (out_dir // "prompts");
                EvMkdir (out_dir // "renders")] ++
               map (prompt_event out_dir) scenes ++
               concat (map (job_events out_dir) jobs) ++
               [EvWrite (out_dir // "manifest.json") (JsonFile m)] |}).
Proof.
  intros Hmk Hprompts Hrenders Hfiles Hmanifest jobs m.
  pose proof (mkdir_parents_is_dir _ _ _ Hmk) as Hout.
  pose (f2 := <[prompts := Dir]> f1).
  pose (f3 := <[renders := Dir]> f2).
  assert (out_dir // "prompts" = prompts) as Ep by by apply div_simple.
  assert (out_dir // "renders" = renders) as Er by by apply div_simple.
  assert (out_dir // "manifest.json" = PyPath.child out_dir "manifest.json")
    as Em by by apply div_simple.
  unfold run.
  (* the three directories *)
  unfold bind at 1. rewrite (mkdir_step _ true _ f1 Hmk).
  unfold bind at 1. rewrite (mkdir_step _ false _ f2); norm_world.
  2:{ rewrite Ep in *. by apply mkdir_exist_ok_child. }
  unfold bind at 1. rewrite (mkdir_step _ false _ f3); norm_world.
  2:{ rewrite Er. apply mkdir_exist_ok_child.
      - unfold f2. rewrite is_dir_insert_ne; [done | apply child_ne_self].
      - rewrite Er in Hrenders.
        erewrite absent_or_dir_lookup; [exact Hrenders |].
        unfold f2. rewrite lookup_insert_ne; [done |].
        apply child_prompts_ne_renders. }
  (* the scripts and the scenes *)
  unfold bind at 1, lift at 1. rewrite Hgen.
  unfold bind at 1, lift at 1. rewrite (comprehension_pieces _ _ _ Hps).
  (* the prompt files *)
  unfold bind at 1.
  pose proof (write_prompts_ok ts out_dir (map (built_scene planner ps) scripts))
    as Hwp. cbv zeta in Hwp.
  rewrite Hwp; clear Hwp; norm_world.
  2:{ apply is_dir_child. unfold f3, f2.
      rewrite lookup_insert_ne, lookup_insert_eq; [done |].
      apply not_eq_sym, child_prompts_ne_renders. }
  2:{ apply Forall_forall. intros s Hs.
      apply list_elem_of_In, in_map_iff in Hs as (sc & <- & Hsc).
      cbn [sign built_scene].
      rewrite forallb_forall in Hnames, Hfiles.
      assert (In sc.1 (map fst scripts)) as Hin by by apply in_map.
      pose proof (Hnames _ Hin) as Hsimple.
      split; [done |].
      pose proof (not_dir_is_dir_false _ _ (Hfiles _ Hin)) as Hfile.
      rewrite Ep, (div_simple _ _ Hsimple) in Hfile.
      erewrite is_dir_lookup; [exact Hfile |]. unfold f3, f2.
      rewrite !lookup_insert_ne; [done | |]; apply not_eq_sym, child_child_ne. }
  (* the jobs *)
  unfold bind at 1.
  pose proof (run_jobs_stub_ok key out_dir scenes) as Hjobs. cbv zeta in Hjobs.
  cbn [veo transformers].
  rewrite Hjobs; clear Hjobs; norm_world.
  2:{ rewrite Er. apply is_dir_child.
      rewrite lookup_write_all_scenes;
        [|intros x; apply not_eq_sym, child_child_ne].
      unfold f3. by rewrite lookup_insert_eq. }
  (* the manifest *)
  unfold bind at 1.
  rewrite (write_step _ _ _ (final_fs out_dir scenes m f1)); norm_world.
  - unfold ret. rewrite length_map. fold jobs. fold m.
    rewrite <- !app_assoc. reflexivity.
  - rewrite Em. unfold final_fs. rewrite Em, Ep, Er. fold f2 f3.
    apply write_file_child.
    + erewrite is_dir_lookup; [exact Hout |].
      rewrite lookup_write_all_scenes.
      * unfold f3, f2.
        rewrite !lookup_insert_ne; [done | |]; apply child_ne_self.
      * intros x Heq. symmetry in Heq.
        apply (f_equal (fun p : Path => length p.2)) in Heq.
        destruct out_dir as [r l]. simpl in Heq.
        rewrite !length_app in Heq. simpl in Heq. lia.
    + apply not_dir_is_dir_false in Hmanifest. rewrite Em in Hmanifest.
      erewrite is_dir_lookup; [exact Hmanifest |].
      rewrite lookup_write_all_scenes;
        [|intros x; apply not_eq_sym, child_child_ne].
      unfold f3, f2.
      rewrite !lookup_insert_ne; [done | |];
        intros Heq; by apply child_inj in Heq as [_ ?].
Qed.

Hypothesis Hnodup : NoDup (map (fun s => s +:+ ".txt") (map fst scripts)).










End StubRun.

(** ** The twelve signs *)



Lemma zodiac_names_simple :
  forallb (fun s => simple_name (s +:+ ".txt")) ZODIAC_SIGNS = true.
Proof. reflexivity. Qed.

Lemma mock_signs (d : Date) :
  exists scripts, generate_daily_horoscopes_mock d = Ok scripts /\
                  map fst scripts = ZODIAC_SIGNS.
Proof. eexists. split; [reflexivity |]. reflexivity. Qed.

Lemma writer_signs getenv new_client (d : Date) scripts :
  HoroscopeWriter.generate_daily_horoscopes getenv new_client d = Ok scripts ->
  map fst scripts = ZODIAC_SIGNS.
Proof.
  unfold HoroscopeWriter.generate_daily_horoscopes.
  destruct (HoroscopeWriter._client getenv new_client) as [client|e]; [|done].
  intros [= <-]. reflexivity.
Qed.

Lemma generator_signs imports getenv new_client (d : Date) scripts :
  generate_daily_horoscopes imports getenv new_client d = Ok scripts ->
  map fst scripts = ZODIAC_SIGNS.
Proof.
  unfold generate_daily_horoscopes.
  destruct (imports && PyStr.truthy (default "" (getenv "OPENAI_API_KEY"))).
  - apply writer_signs.
  - intros Hmock. destruct (mock_signs d) as (scripts' & Hm & Hs). congruence.
Qed.

(** ** Names that make one path part *)

Lemma splitroot_no_slash (s : string) :
  PyStr.mem "/" s = false -> PyPath.splitroot s = "".
Proof.
  destruct s as [|c s]; [done |].
  change (PyStr.mem "/" (String c s))
    with (if Ascii.eqb "/" c then true else PyStr.mem "/" s).
  destruct (Ascii.eqb_spec "/" c) as [<-|Hne]; [done |]. intros _.
  destruct c as [[] [] [] [] [] [] [] []]; try reflexivity. by destruct Hne.
Qed.

Lemma split_on_no_sep sep (cur s : string) :
  PyStr.mem sep s = false -> PyPath.split_on sep cur s = [cur +:+ s].
Proof.
  revert cur. induction s as [|c s IH]; intros cur; simpl.
  - by rewrite append_empty_r.
  - rewrite (Ascii.eqb_sym sep c). destruct (Ascii.eqb c sep); [done |].
    intros Hs. rewrite IH; [|done]. unfold PyStr.snoc.
    by rewrite append_assoc.
Qed.

Lemma simple_name_no_slash (s : string) :
  PyStr.mem "/" s = false -> s <> "" -> s <> "." -> simple_name s = true.
Proof.
  intros Hs He Hd. unfold simple_name.
  rewrite splitroot_no_slash; [|done]. simpl.
  apply bool_decide_eq_true. unfold PyPath.parse_parts.
  rewrite split_on_no_sep; [|done]. simpl.
  rewrite filter_cons, filter_nil, decide_True; [done |].
  unfold PyPath.kept_part.
  destruct (String.eqb_spec s ""); [done |].
  destruct (String.eqb_spec s "."); done.
Qed.

Lemma simple_job_file (sign : string) (t : Z) :
  In sign ZODIAC_SIGNS ->
  simple_name (("veo_" +:+ PyStr.lower sign +:+ "_" +:+ PyStr.str_of_int t)
               +:+ ".mp4") = true.
Proof.
  intros Hin. apply simple_name_no_slash; [| done | done].
  rewrite !mem_append, mem_str_of_int; [| done | done].
  assert (PyStr.mem "/" (PyStr.lower sign) = false) as ->; [|done].
  unfold ZODIAC_SIGNS in Hin. simpl in Hin.
  repeat (destruct Hin as [<-|Hin]; [reflexivity |]). destruct Hin.
Qed.

(** A directory that does not exist yet, in a directory that does, with
    nothing recorded below it, can take a run. *)
Lemma fresh_out_dir_usable (f : gmap Path node) (p : Path) (x : string) :
  PyOS.is_dir f p = true ->
  (forall q, ancestor_or_self (PyPath.child p x) q -> f !! q = None) ->
  out_dir_usable f (PyPath.child p x) ZODIAC_SIGNS = true.
Proof.
  intros Hp Hfresh. unfold out_dir_usable, PyOS.mkdir_parents_exist_ok.
  rewrite mkdir_parents_rev_unfold. cbv zeta. rewrite rev_involutive.
  change (PyPath.child p x).1 with p.1.
  change (p.1, (PyPath.child p x).2) with (PyPath.child p x).
  assert (forall y, ancestor_or_self (PyPath.child p x)
                      (PyPath.child (PyPath.child p x) y)) as Hsub.
  { intros y. split; [done |]. by apply prefix_app_r. }
  assert (forall y z, ancestor_or_self (PyPath.child p x)
                        (PyPath.child (PyPath.child (PyPath.child p x) y) z))
    as Hsub2.
  { intros y z. split; [done |]. simpl. by apply prefix_app_r, prefix_app_r. }
  unfold PyOS.os_mkdir.
  rewrite node_at_child, (Hfresh (PyPath.child p x)), parent_child,
    (is_dir_node_at _ _ Hp); [|done].
  assert (forall q, q <> PyPath.child p x ->
            ancestor_or_self (PyPath.child p x) q ->
            PyOS.node_at (<[PyPath.child p x := Dir]> f) q = None) as Hnone.
  { intros q Hne Hq. unfold PyOS.node_at.
    rewrite lookup_insert_ne, (Hfresh q Hq); [|done].
    destruct q.2 eqn:E; [|done].
    destruct Hq as [_ Hpre]. rewrite E in Hpre. simpl in Hpre.
    apply prefix_length in Hpre. rewrite length_app in Hpre. simpl in Hpre. lia. }
  rewrite (div_simple _ "prompts"), (div_simple _ "renders"),
    (div_simple _ "manifest.json"); try done.
  apply andb_true_intro; split;
    [apply andb_true_intro; split; [apply andb_true_intro; split |] |].
  - unfold absent_or_dir. by rewrite Hnone; [| apply child_ne_self | apply Hsub].
  - unfold absent_or_dir. by rewrite Hnone; [| apply child_ne_self | apply Hsub].
  - apply forallb_forall. intros s Hs.
    pose proof zodiac_names_simple as Hsimple. rewrite forallb_forall in Hsimple.
    rewrite (div_simple _ _ (Hsimple s Hs)). unfold PyOS.is_dir.
    rewrite Hnone; [done | | apply Hsub2].
    intros Heq. symmetry in Heq. revert Heq. apply not_eq_sym.
    intros Heq. apply (f_equal (fun q : Path => length q.2)) in Heq.
    destruct p as [r l]. simpl in Heq. rewrite !length_app in Heq.
    simpl in Heq. lia.
  - unfold PyOS.is_dir. by rewrite Hnone; [| apply child_ne_self | apply Hsub].
Qed.

(** ** The jobs of the second client *)

Lemma stub_jobs_scenes out_dir clk n (scenes : list SceneSpec) :
  map scene (stub_jobs out_dir clk n scenes) = scenes /\
  length (stub_jobs out_dir clk n scenes) = length scenes.
Proof.
  revert n. induction scenes as [|s scenes IH]; intros n; simpl; [done |].
  destruct (IH (S n)) as [-> ->]. done.
Qed.


(** ** A run over the twelve signs *)

Section ZodiacRun.
Context `{FormatBuiltins}.
Variable generate : Date -> result (list (string * string)).
Variables (key : string) (ts : list PromptTransformer).
Variables (date : Date) (out_dir : Path) (render : RenderSpec).
Variables (ps : list piece) (style : string).
Variable scripts : list (string * string).

Local Abbreviation self :=
  {| veo := VeoClient.make key; transformers := ts |}.
Local Abbreviation scenes := (final_scenes ts render style ps scripts).

Hypothesis Hgen : generate date = Ok scripts.
Hypothesis Hsigns : map fst scripts = ZODIAC_SIGNS.
Hypothesis Hps : forallb piece_ok ps = true.

Lemma scripts_simple :
  forallb (fun s => simple_name (s +:+ ".txt")) (map fst scripts) = true.
Proof. rewrite Hsigns. apply zodiac_names_simple. Qed.


Lemma scenes_length : length scenes = 12%nat.
Proof.
  unfold final_scenes. rewrite !length_map, <- (length_map fst), Hsigns.
  reflexivity.
Qed.

Lemma run_stub_zodiac (w : World) :
  out_dir_usable (fs w) out_dir ZODIAC_SIGNS = true ->
  exists f1,
    PyOS.mkdir_parents_exist_ok (fs w) out_dir = Ok f1 /\
    let jobs := stub_jobs out_dir (clock w) (clock_reads w) scenes in
    let m := make_manifest date render jobs in
    run generate self date out_dir render (template_of ps) style w =
    (Ok jobs,
     {| fs := final_fs out_dir scenes m f1; environ := environ w;
        clock := clock w; clock_reads := clock_reads w + 12;
        network := network w;
        trace := trace w ++
                 [EvMkdir out_dir; EvMkdir (out_dir // "prompts");
                  EvMkdir (out_dir // "renders")] ++
                 map (prompt_event out_dir) scenes ++
                 concat (map (job_events out_dir) jobs) ++
                 [EvWrite (out_dir // "manifest.json") (JsonFile m)] |}).
Proof.
  unfold out_dir_usable. intros Huse.
  destruct (PyOS.mkdir_parents_exist_ok (fs w) out_dir) as [f1|e] eqn:Hmk;
    [|done].
  apply andb_prop in Huse as [Huse Hmanifest].
  apply andb_prop in Huse as [Huse Hfiles].
  apply andb_prop in Huse as [Hprompts Hrenders].
  exists f1. split; [done |]. cbv zeta.
  rewrite <- Hsigns in Hfiles.
  pose proof (run_stub_ok generate key ts date out_dir render ps style scripts
                Hgen Hps scripts_simple w f1 Hmk Hprompts Hrenders Hfiles
                Hmanifest) as Hrun.
  cbv zeta in Hrun. fold scenes in Hrun. rewrite scenes_length in Hrun.
  exact Hrun.
Qed.
End ZodiacRun.

(** ** The claims about a run *)









(** ** Computations that make no request *)

Lemma offline_ret {A} (a : A) : offline (ret a).
Proof. intros w. split; [done |]. exists []. by rewrite app_nil_r. Qed.

Lemma offline_raise {A} (e : exn) : offline (@raise A e).
Proof. intros w. split; [done |]. exists []. by rewrite app_nil_r. Qed.

Lemma offline_lift {A} (r : result A) : offline (lift r).
Proof. intros w. split; [done |]. exists []. by rewrite app_nil_r. Qed.

Lemma offline_log (e : event) : is_http e = false -> offline (log e).
Proof.
  intros He w. split; [done |]. exists [e]. split; [done |]. simpl.
  by rewrite He.
Qed.

Lemma offline_bind {A B} (m : M A) (k : A -> M B) :
  offline m -> (forall a, offline (k a)) -> offline (bind m k).
Proof.
  intros Hm Hk w. unfold bind. destruct (Hm w) as (Hn & evs & Ht & Hevs).
  destruct (m w) as [[a|e] w1]; simpl in *.
  - destruct (Hk a w1) as (Hn2 & evs2 & Ht2 & Hevs2). split; [congruence |].
    exists (evs ++ evs2)%list. rewrite Ht2, Ht, app_assoc. split; [done |].
    by rewrite forallb_app, Hevs, Hevs2.
  - split; [done |]. by exists evs.
Qed.

Lemma offline_on_fs op : offline (PyOS.on_fs op).
Proof.
  intros w. unfold PyOS.on_fs. destruct (op (fs w)); simpl;
    (split; [done |]; exists []; by rewrite app_nil_r).
Qed.

Lemma offline_getenv (name : string) : offline (PyOS.getenv name).
Proof. intros w. split; [done |]. exists []. by rewrite app_nil_r. Qed.

Lemma offline_utc_timestamp : offline PyOS.utc_timestamp.
Proof. intros w. split; [done |]. exists []. by rewrite app_nil_r. Qed.

Lemma offline_mkdir (p : Path) (parents : bool) : offline (PyOS.mkdir p parents).
Proof.
  apply offline_bind; [by apply offline_log |]. intros _. apply offline_on_fs.
Qed.

Lemma offline_write (p : Path) (c : content) : offline (PyOS.write p c).
Proof.
  apply offline_bind; [by apply offline_log |]. intros _. apply offline_on_fs.
Qed.

Lemma offline_write_prompts ts (out_dir : Path) (scenes : list SceneSpec) :
  offline (write_prompts ts out_dir scenes).
Proof.
  induction scenes as [|s scenes IH]; simpl; [apply offline_ret |].
  apply offline_bind; [apply offline_write |]. intros _.
  apply offline_bind; [exact IH |]. intros rest. apply offline_ret.
Qed.

Lemma offline_for_collect {A B} (xs : list A) (body : A -> M B) :
  (forall x, offline (body x)) -> offline (for_collect xs body).
Proof.
  intros Hbody. induction xs as [|x xs IH]; simpl; [apply offline_ret |].
  apply offline_bind; [apply Hbody |]. intros y.
  apply offline_bind; [exact IH |]. intros ys. apply offline_ret.
Qed.

Lemma offline_stub_submit (scene : SceneSpec) : offline (VeoClient.submit scene).
Proof.
  apply offline_bind; [apply offline_utc_timestamp |]. intros now.
  apply offline_ret.
Qed.

Lemma offline_stub_poll (job : VideoJob) (out_dir : Path) :
  offline (VeoClient.poll_until_done job out_dir).
Proof.
  apply offline_bind; [apply offline_mkdir |]. intros _. apply offline_ret.
Qed.

Lemma offline_run_jobs key (out_dir : Path) (scenes : list SceneSpec) :
  offline (run_jobs (VeoClient.make key) out_dir scenes).
Proof.
  apply offline_for_collect. intros s. cbn [submit poll_until_done VeoClient.make].
  apply offline_bind; [apply offline_stub_submit |]. intros job.
  apply offline_bind; [by apply offline_log |]. intros _.
  apply offline_bind; [apply offline_stub_poll |]. intros job'.
  apply offline_bind; [by apply offline_log |]. intros _. apply offline_ret.
Qed.

Lemma offline_run `{FormatBuiltins} generate key ts date (out_dir : Path)
    render template style :
  offline (run generate {| veo := VeoClient.make key; transformers := ts |}
               date out_dir render template style).
Proof.
  unfold run.
  repeat (apply offline_bind; [apply offline_mkdir |]; intros _).
  apply offline_bind; [apply offline_lift |]. intros scripts.
  apply offline_bind; [apply offline_lift |]. intros scenes.
  apply offline_bind; [apply offline_write_prompts |]. intros scenes'.
  apply offline_bind; [apply offline_run_jobs |]. intros jobs.
  apply offline_bind; [apply offline_write |]. intros _. apply offline_ret.
Qed.

(** ** What the second client returns *)

Lemma stub_poll_result (job : VideoJob) (out_dir : Path) (w : World) :
  (exists e w', VeoClient.poll_until_done job out_dir w = (Raise e, w')) \/
  (exists w',
     VeoClient.poll_until_done job out_dir w =
     (Ok {| id := id job; scene := scene job; status := "done";
            video_path := Some (PyPath.str (mp4_path out_dir job)) |}, w')).
Proof.
  unfold VeoClient.poll_until_done, bind.
  destruct (PyOS.mkdir (out_dir // "renders") true w) as [[[]|e] w1]; eauto.
Qed.

Lemma for_collect_inv {A B} (P : B -> Prop) (xs : list A) (body : A -> M B)
    (w w' : World) (ys : list B) :
  (forall x w0 y w1, body x w0 = (Ok y, w1) -> P y) ->
  for_collect xs body w = (Ok ys, w') -> Forall P ys.
Proof.
  intros Hbody. revert w ys.
  induction xs as [|x xs IH]; intros w ys; simpl.
  - unfold ret. intros [= <- _]. constructor.
  - unfold bind. destruct (body x w) as [[y|e] w1] eqn:Hy; [|done].
    destruct (for_collect xs body w1) as [[ys'|e] w2] eqn:Hys; [|done].
    unfold ret. intros [= <- <-]. constructor; [by eapply Hbody | by eapply IH].
Qed.

Lemma run_jobs_stub_inv key (out_dir : Path) (scenes : list SceneSpec)
    (w w' : World) (jobs : list VideoJob) :
  run_jobs (VeoClient.make key) out_dir scenes w = (Ok jobs, w') ->
  Forall (fun j => status j = "done" /\ is_Some (video_path j)) jobs.
Proof.
  apply for_collect_inv. intros s w0 j w1.
  cbn [submit poll_until_done VeoClient.make].
  unfold bind at 1. unfold VeoClient.submit, bind at 1, PyOS.utc_timestamp, ret at 1.
  unfold bind at 1, log at 1. unfold bind at 1.
  match goal with
  | |- context [VeoClient.poll_until_done ?job ?out ?w] =>
      destruct (stub_poll_result job out w) as [(e & w2 & ->)|(w2 & ->)]
  end; [done |].
  unfold bind, log, ret. intros [= <- _]. cbn [status video_path]. eauto.
Qed.

Lemma write_ok_lookup (p : Path) (x : string) (c : content) (w w' : World) :
  PyOS.write (PyPath.child p x) c w = (Ok tt, w') ->
  fs w' !! PyPath.child p x = Some (File c).
Proof.
  unfold PyOS.write, bind, log, PyOS.on_fs. simpl.
  destruct (PyOS.write_file (fs w) (PyPath.child p x) c) as [f'|e] eqn:Hw;
    [|done].
  intros [= <-]. simpl. unfold PyOS.write_file in Hw.
  destruct (PyOS.node_at (fs w) (PyPath.child p x)) as [[|c0]|];
    destruct (PyOS.node_at (fs w) (PyPath.parent (PyPath.child p x)))
      as [[|c1]|]; try done; injection Hw as <-; by rewrite lookup_insert_eq.
Qed.

(** C9: with the second client a run makes no request at all, whatever
    its inputs; [poll_until_done] either fails to make the [renders]
    directory or returns the job as done with a video path; so every job
    a run returns, and every job entry of the manifest it has written,
    has status "done" and a video path, and none is failed. *)
Theorem stub_run_all_done `{FormatBuiltins}
    (generate : Date -> result (list (string * string)))
    (key : string) (ts : list PromptTransformer) (date : Date)
    (out_dir : Path) (render : RenderSpec) (template style : string)
    (w w' : World) (jobs : list VideoJob) :
  let self := {| veo := VeoClient.make key; transformers := ts |} in
  run generate self date out_dir render template style w = (Ok jobs, w') ->
  Forall (fun j => status j = "done" /\ is_Some (video_path j) /\
                   status j <> "failed") jobs /\
  (exists m,
     fs w' !! (out_dir // "manifest.json") = Some (File (JsonFile m)) /\
     manifest_jobs m = map job_entry jobs /\
     Forall (fun e => entry_status e = "done" /\ is_Some (entry_video_path e))
            (manifest_jobs m)) /\
  network w' = network w /\
  (exists evs, trace w' = (trace w ++ evs)%list /\
               forallb (fun e => negb (is_http e)) evs = true) /\
  (forall job dir w0,
     (exists e w1, VeoClient.poll_until_done job dir w0 = (Raise e, w1)) \/
     (exists w1,
        VeoClient.poll_until_done job dir w0 =
        (Ok {| id := id job; scene := scene job; status := "done";
               video_path := Some (PyPath.str (mp4_path dir job)) |}, w1))).
Proof.
  intros self Hrun.
  pose proof (offline_run generate key ts date out_dir render template style w)
    as Hoff.
  fold self in Hoff. rewrite Hrun in Hoff. cbn [snd] in Hoff.
  destruct Hoff as [Hnet Htrace].
  assert (Forall (fun j => status j = "done" /\ is_Some (video_path j)) jobs /\
          fs w' !! (out_dir // "manifest.json") =
            Some (File (JsonFile (make_manifest date render jobs)))) as [Hjobs Hm].
  { unfold run in Hrun.
    repeat (unfold bind at 1 in Hrun;
            match type of Hrun with
            | context [match ?stage ?w0 with _ => _ end] =>
                destruct (stage w0) as [[?a|?e] ?w] eqn:?Hst; [|discriminate Hrun]
            end).
    unfold ret in Hrun. injection Hrun as <- <-.
    subst self. cbn [veo transformers] in *. split.
    - match goal with
      | Hj : run_jobs _ _ _ _ = _ |- _ => exact (run_jobs_stub_inv _ _ _ _ _ _ Hj)
      end.
    - rewrite (div_simple _ "manifest.json") in *; try done.
      match goal with
      | Hw : PyOS.write _ _ _ = (Ok ?u, _) |- _ =>
          destruct u; exact (write_ok_lookup _ _ _ _ _ Hw)
      end. }
  split.
  { eapply Forall_impl; [exact Hjobs |]. intros j (Hd & Hv). rewrite Hd. done. }
  split.
  { eexists. split; [exact Hm |]. cbn [manifest_jobs make_manifest].
    split; [done |]. apply Forall_forall. intros e He.
    apply list_elem_of_In, in_map_iff in He as (j & <- & Hj).
    rewrite Forall_forall in Hjobs. apply Hjobs. by apply list_elem_of_In. }
  split; [exact Hnet |]. split; [exact Htrace |].
  intros job dir w0. apply stub_poll_result.
Qed.

Lemma stub_run_all_done_witness :
  exists jobs w',
    @run bare_builtins generate_daily_horoscopes_mock pipeline0 date0
         (PyPath.of_string "./out") render0 DEFAULT_TEMPLATE
         "whimsical_astrology" world0 = (Ok jobs, w') /\
    Forall (fun j => status j = "done" /\ is_Some (video_path j) /\
                     status j <> "failed") jobs.
Proof.
  destruct (@run_stub_zodiac bare_builtins generate_daily_horoscopes_mock
              "demo-key" [IdentityTransformer; CyberpunkPunchup] date0
              (PyPath.of_string "./out") render0 DEFAULT_PIECES
              "whimsical_astrology" scripts0 eq_refl eq_refl eq_refl world0
              eq_refl) as (f1 & _ & Hrun).
  cbv zeta in Hrun. eexists _, _. split; [exact Hrun |].
  exact (proj1 (@stub_run_all_done bare_builtins generate_daily_horoscopes_mock
                  "demo-key" [IdentityTransformer; CyberpunkPunchup] date0
                  (PyPath.of_string "./out") render0 DEFAULT_TEMPLATE
                  "whimsical_astrology" world0 _ _ Hrun)).
Defined.

(** ** The key and the two client classes *)




(** ** A completion without media *)





(** * Further properties of the code *)

(** ** White space at the ends of a string *)

Lemma rev_app_append (s t : string) :
  String.rev_app s t = String.rev s +:+ t.
Proof.
  revert t. induction s as [|c s IH]; intros t; [done |].
  unfold String.rev. simpl. rewrite (IH (String c t)), (IH (String c "")).
  by rewrite append_assoc.
Qed.

Lemma rev_cons c (s : string) :
  String.rev (String c s) = String.rev s +:+ String c "".
Proof. unfold String.rev at 1. simpl. apply rev_app_append. Qed.

Lemma rev_append (s t : string) :
  String.rev (s +:+ t) = String.rev t +:+ String.rev s.
Proof.
  induction s as [|c s IH]; simpl.
  - by rewrite append_empty_r.
  - by rewrite !rev_cons, IH, append_assoc.
Qed.

Lemma rev_rev (s : string) : String.rev (String.rev s) = s.
Proof.
  induction s as [|c s IH]; [done |].
  by rewrite rev_cons, rev_append, IH.
Qed.

Lemma last_char_append (s t : string) :
  t <> "" -> last_char (s +:+ t) = last_char t.
Proof.
  intros Ht. induction s as [|c s IH]; simpl; [done |].
  destruct (s +:+ t) eqn:E; [|done].
  destruct s; [simpl in E; congruence | discriminate E].
Qed.

Lemma last_char_rev (s : string) : last_char (String.rev s) = first_char s.
Proof.
  destruct s as [|c s]; [done |]. rewrite rev_cons.
  by rewrite last_char_append.
Qed.

Lemma first_char_append (s t : string) :
  s <> "" -> first_char (s +:+ t) = first_char s.
Proof. by destruct s. Qed.

Lemma length_append (s t : string) :
  String.length (s +:+ t) = (String.length s + String.length t)%nat.
Proof. induction s as [|c s IH]; simpl; [done |]. by rewrite IH. Qed.

Lemma length_rev (s : string) : String.length (String.rev s) = String.length s.
Proof.
  induction s as [|c s IH]; [done |].
  rewrite rev_cons, length_append, IH. simpl. lia.
Qed.

Lemma prefix_drop (x s : string) :
  String.prefix x s = true -> s = x +:+ HoroscopeWriter.drop (String.length x) s.
Proof.
  revert s. induction x as [|c x IH]; intros s; [by destruct s |].
  destruct s as [|d s]; [done |]. cbn.
  destruct (ascii_dec c d) as [->|]; [|done]. intros Hx. f_equal. by apply IH.
Qed.

Lemma prefix_append_r (x s t : string) :
  String.prefix x s = true -> String.prefix x (s +:+ t) = true.
Proof.
  revert s. induction x as [|c x IH]; intros s; [by destruct (s +:+ t) |].
  destruct s as [|d s]; [done |]. cbn.
  destruct (ascii_dec c d); [apply IH | done].
Qed.

Lemma length_drop (n : nat) (s : string) :
  String.length (HoroscopeWriter.drop n s) = (String.length s - n)%nat.
Proof.
  revert s. induction n as [|n IH]; intros [|c s]; simpl; try done.
Qed.

Lemma leading_some (chars : list string) (s x : string) :
  HoroscopeWriter.leading chars s = Some x ->
  In x chars /\ s = x +:+ HoroscopeWriter.drop (String.length x) s.
Proof.
  unfold HoroscopeWriter.leading. intros Hx.
  apply find_some in Hx as [Hin Hpre]. split; [done | by apply prefix_drop].
Qed.

Lemma leading_none_append (chars : list string) (s t : string) :
  HoroscopeWriter.leading chars (s +:+ t) = None ->
  HoroscopeWriter.leading chars s = None.
Proof.
  unfold HoroscopeWriter.leading. intros Hnone.
  destruct (find (fun x => String.prefix x s) chars) as [x|] eqn:Hx; [|done].
  apply find_some in Hx as [Hin Hpre].
  pose proof (find_none _ _ Hnone x Hin) as Hf. cbv beta in Hf.
  by rewrite (prefix_append_r _ _ _ Hpre) in Hf.
Qed.

Lemma leading_empty (chars : list string) :
  Forall (fun x => x <> "") chars -> HoroscopeWriter.leading chars "" = None.
Proof.
  unfold HoroscopeWriter.leading.
  induction 1 as [|x chars Hx _ IH]; [done |]. simpl.
  by destruct x.
Qed.

(** What [drop_leading] removes is a sequence of characters of [chars],
    and what it leaves starts with none of them. *)
Lemma drop_leading_spec (chars : list string) (turns : nat) (s : string) :
  Forall (fun x => x <> "") chars ->
  (String.length s <= turns)%nat ->
  exists removed,
    Forall (fun x => In x chars) removed /\
    s = flatten removed +:+ HoroscopeWriter.drop_leading chars turns s /\
    HoroscopeWriter.leading chars (HoroscopeWriter.drop_leading chars turns s)
    = None.
Proof.
  intros Hne. revert s. induction turns as [|n IH]; intros s Hlen.
  - destruct s; [|simpl in Hlen; lia].
    exists []. split; [constructor |]. split; [done |].
    by apply leading_empty.
  - cbn [HoroscopeWriter.drop_leading].
    destruct (HoroscopeWriter.leading chars s) as [x|] eqn:Hx.
    + apply leading_some in Hx as [Hin Hs].
      assert (x <> "") as Hxne by (rewrite Forall_forall in Hne;
                                   by apply Hne, list_elem_of_In).
      destruct (IH (HoroscopeWriter.drop (String.length x) s))
        as (removed & Hall & Hrest & Hnone).
      { rewrite length_drop. destruct x; [done |]. simpl. lia. }
      exists (x :: removed). split; [by constructor |]. split; [|done].
      cbn [flatten]. rewrite append_assoc, <- Hrest. exact Hs.
    + exists []. split; [constructor |]. by split.
Qed.

Lemma whitespace_nonempty :
  Forall (fun x => x <> "") HoroscopeWriter.WHITESPACE.
Proof. repeat constructor; discriminate. Qed.

Lemma whitespace_rev_nonempty :
  Forall (fun x => x <> "") (map String.rev HoroscopeWriter.WHITESPACE).
Proof. repeat constructor; discriminate. Qed.

Lemma flatten_app (l l' : list string) :
  flatten (l ++ l') = flatten l +:+ flatten l'.
Proof.
  induction l as [|x l IH]; simpl; [done |]. by rewrite IH, append_assoc.
Qed.

Lemma rev_flatten (l : list string) :
  String.rev (flatten l) = flatten (rev (map String.rev l)).
Proof.
  induction l as [|x l IH]; [done |].
  cbn [flatten map rev]. rewrite rev_append, IH, flatten_app. simpl.
  by rewrite append_empty_r.
Qed.

Lemma lstrip_spec (s : string) :
  exists a, white a /\ s = a +:+ HoroscopeWriter.lstrip s /\
            HoroscopeWriter.leading HoroscopeWriter.WHITESPACE
              (HoroscopeWriter.lstrip s) = None.
Proof.
  destruct (drop_leading_spec HoroscopeWriter.WHITESPACE (String.length s) s
              whitespace_nonempty (le_n _)) as (removed & Hall & Hs & Hnone).
  exists (flatten removed). split; [by exists removed |]. by split.
Qed.

Lemma rstrip_spec (s : string) :
  exists b, white b /\ s = HoroscopeWriter.rstrip s +:+ b /\
            HoroscopeWriter.leading (map String.rev HoroscopeWriter.WHITESPACE)
              (String.rev (HoroscopeWriter.rstrip s)) = None.
Proof.
  unfold HoroscopeWriter.rstrip.
  destruct (drop_leading_spec (map String.rev HoroscopeWriter.WHITESPACE)
              (String.length s) (String.rev s) whitespace_rev_nonempty)
    as (removed & Hall & Hs & Hnone).
  { by rewrite length_rev. }
  exists (String.rev (flatten removed)). split; [|split].
  - exists (rev (map String.rev removed)). split; [|apply rev_flatten].
    apply Forall_forall. intros x Hx.
    apply list_elem_of_In, in_rev, in_map_iff in Hx as (y & <- & Hy).
    rewrite Forall_forall in Hall.
    apply list_elem_of_In, Hall, in_map_iff in Hy as (z & <- & Hz).
    by rewrite rev_rev.
  - rewrite <- rev_append, <- Hs. by rewrite rev_rev.
  - by rewrite rev_rev.
Qed.

(** [strip] takes white-space characters off both ends and nothing else,
    and leaves none at either end. *)
Lemma strip_spec (s : string) :
  exists a b, s = a +:+ HoroscopeWriter.strip s +:+ b /\
              white a /\ white b /\
              trimmed (HoroscopeWriter.strip s) = true.
Proof.
  unfold HoroscopeWriter.strip.
  destruct (lstrip_spec s) as (a & Ha & Hs & Hfirst).
  destruct (rstrip_spec (HoroscopeWriter.lstrip s)) as (b & Hb & Ht & Hlast).
  exists a, b. split; [by rewrite <- Ht |]. split; [done |]. split; [done |].
  unfold trimmed. rewrite Hlast.
  rewrite Ht in Hfirst. apply leading_none_append in Hfirst.
  by rewrite Hfirst.
Qed.

(** ** The text generator *)

Lemma placeholder_trimmed (sign : string) :
  trimmed (HoroscopeWriter.placeholder sign) = true.
Proof.
  unfold trimmed, HoroscopeWriter.placeholder.
  rewrite !rev_append.
  assert (String.rev " placeholder horoscope: Today is a lucky day! 🌟)" =
          String ")" (String.rev " placeholder horoscope: Today is a lucky day! 🌟"))
    as -> by reflexivity.
  reflexivity.
Qed.

Lemma writer_client_key (getenv : string -> option string)
    (new_client : string -> result HoroscopeWriter.Chat) (key : string) :
  getenv "OPENAI_API_KEY" = Some key -> key <> "" ->
  HoroscopeWriter._client getenv new_client = new_client key.
Proof.
  unfold HoroscopeWriter._client. intros -> Hkey. by destruct key.
Qed.

Lemma writer_with_key (getenv : string -> option string)
    (new_client : string -> result HoroscopeWriter.Chat)
    (chat : HoroscopeWriter.Chat) (key : string) (d : Date) :
  getenv "OPENAI_API_KEY" = Some key -> key <> "" ->
  new_client key = Ok chat ->
  HoroscopeWriter.generate_daily_horoscopes getenv new_client d =
  Ok (map (fun sign =>
             (sign,
              match chat (default "gpt-4o-mini" (getenv "MODEL"))
                         (HoroscopeWriter.user_prompt
                            (PyDate.strftime_long d) sign) with
              | Some text => HoroscopeWriter.strip text
              | None => HoroscopeWriter.placeholder sign
              end)) ZODIAC_SIGNS).
Proof.
  intros Henv Hkey Hclient. unfold HoroscopeWriter.generate_daily_horoscopes.
  by rewrite (writer_client_key _ _ _ Henv Hkey), Hclient.
Qed.

(** X1: with an OpenAI key in the environment and a client that
    [OpenAI(api_key=key)] constructs, the writer does not fail, whatever
    the chat service then does: it returns one text per sign, the twelve
    signs in the order of [ZODIAC_SIGNS]; every chat call names the model
    of [MODEL] (default gpt-4o-mini); the text of a sign is the placeholder
    of that sign when the call raised, and otherwise the content of the
    reply with white-space characters (those of [str.isspace], ASCII or
    not) removed at both ends and nothing else changed; either way it has
    no white-space character at its ends. *)
Theorem writer_returns_twelve_trimmed (getenv : string -> option string)
    (new_client : string -> result HoroscopeWriter.Chat)
    (chat : HoroscopeWriter.Chat) (key : string) (d : Date) :
  getenv "OPENAI_API_KEY" = Some key -> key <> "" ->
  new_client key = Ok chat ->
  exists scripts,
    HoroscopeWriter.generate_daily_horoscopes getenv new_client d = Ok scripts /\
    map fst scripts = ZODIAC_SIGNS /\
    Forall (fun script =>
              trimmed script.2 = true /\
              match chat (default "gpt-4o-mini" (getenv "MODEL"))
                         (HoroscopeWriter.user_prompt
                            (PyDate.strftime_long d) script.1) with
              | None => script.2 = HoroscopeWriter.placeholder script.1
              | Some content =>
                  exists a b, content = a +:+ script.2 +:+ b /\
                              white a /\ white b
              end) scripts.
Proof.
  intros Henv Hkey Hclient.
  rewrite (writer_with_key _ _ _ _ _ Henv Hkey Hclient).
  eexists. split; [reflexivity |]. split; [by rewrite map_map, map_id |].
  apply Forall_map, Forall_forall. intros sign _. cbn [fst snd].
  destruct (chat _ _) as [content|].
  - destruct (strip_spec content) as (a & b & Hc & Ha & Hb & Ht).
    split; [exact Ht |]. by exists a, b.
  - split; [apply placeholder_trimmed | done].
Qed.

Lemma writer_returns_twelve_trimmed_witness :
  exists scripts,
    HoroscopeWriter.generate_daily_horoscopes
      (fun name => if String.eqb name "OPENAI_API_KEY" then Some "sk-test"
                   else None)
      (fun _ => Ok (fun model p =>
                      if PyStr.contains "Leo" p then None
                      else Some (" " +:+ HoroscopeWriter.bytes [194; 160]%nat +:+
                                 "Be bold." +:+
                                 HoroscopeWriter.bytes [226; 128; 131; 10]%nat)))
      date0 = Ok scripts /\
    scripts !! 0%nat = Some ("Aries", "Be bold.") /\
    scripts !! 4%nat =
      Some ("Leo", "(Leo placeholder horoscope: Today is a lucky day! 🌟)").
Proof.
  destruct (writer_returns_twelve_trimmed
              (fun name => if String.eqb name "OPENAI_API_KEY"
                           then Some "sk-test" else None)
              (fun _ => Ok (fun model p =>
                              if PyStr.contains "Leo" p then None
                              else Some (" " +:+ HoroscopeWriter.bytes [194; 160]%nat
                                         +:+ "Be bold." +:+
                                         HoroscopeWriter.bytes [226; 128; 131; 10]%nat)))
              _ "sk-test" date0 eq_refl ltac:(discriminate) eq_refl)
    as (scripts & Hrun & _).
  exists scripts. split; [exact Hrun |].
  vm_compute in Hrun. injection Hrun as <-. split; reflexivity.
Defined.

Lemma writer_missing_key (getenv : string -> option string)
    (new_client : string -> result HoroscopeWriter.Chat) (d : Date) :
  PyStr.truthy (default "" (getenv "OPENAI_API_KEY")) = false ->
  HoroscopeWriter.generate_daily_horoscopes getenv new_client d =
  Raise (RuntimeError "OPENAI_API_KEY missing. Add it to your .env").
Proof.
  unfold HoroscopeWriter.generate_daily_horoscopes, HoroscopeWriter._client.
  by destruct (getenv "OPENAI_API_KEY") as [[|c k]|].
Qed.

(** X2: without an OpenAI key in the environment, or with an empty one,
    the writer raises its RuntimeError whatever the client constructor,
    the chat service and the date, and the script entry of the writer
    module stops on it before [save_horoscopes] is reached: no folder is
    made, no file written, the world is as it was. *)
Theorem writer_main_missing_key (getenv : string -> option string)
    (new_client : string -> result HoroscopeWriter.Chat) (today : Date)
    (w : World) :
  PyStr.truthy (default "" (getenv "OPENAI_API_KEY")) = false ->
  HoroscopeWriter.generate_daily_horoscopes getenv new_client today =
    Raise (RuntimeError "OPENAI_API_KEY missing. Add it to your .env") /\
  writer_main getenv new_client today w =
    (Raise (RuntimeError "OPENAI_API_KEY missing. Add it to your .env"), w).
Proof.
  intros Hkey. split; [by apply writer_missing_key |].
  unfold writer_main, bind, lift. by rewrite writer_missing_key.
Qed.

Lemma writer_main_missing_key_witness :
  writer_main
    (fun name => if String.eqb name "OPENAI_API_KEY" then Some "" else None)
    (fun _ => Ok (fun _ _ => Some "never asked")) date0 world0 =
  (Raise (RuntimeError "OPENAI_API_KEY missing. Add it to your .env"), world0).
Proof. apply writer_main_missing_key. reflexivity. Defined.

(** X3: the generator the pipeline module binds at import always returns
    the twelve signs, in order, when it returns, and has one way to fail:
    the writer was taken (it imports and a key is set) and constructing
    its OpenAI client raised; the exception is that one.  It never fails
    for a missing key, which is when the mock is taken, nor because a chat
    call failed. *)
Theorem generator_fails_only_on_client (writer_imports : bool)
    (getenv : string -> option string)
    (new_client : string -> result HoroscopeWriter.Chat) (d : Date) :
  match generate_daily_horoscopes writer_imports getenv new_client d with
  | Ok scripts => map fst scripts = ZODIAC_SIGNS /\ length scripts = 12%nat
  | Raise e =>
      writer_imports = true /\
      exists key, getenv "OPENAI_API_KEY" = Some key /\ key <> "" /\
                  new_client key = Raise e
  end.
Proof.
  unfold generate_daily_horoscopes.
  destruct writer_imports; cbn [andb]; [|by split].
  destruct (getenv "OPENAI_API_KEY") as [[|c k]|] eqn:Henv; cbn; try by split.
  unfold HoroscopeWriter.generate_daily_horoscopes, HoroscopeWriter._client.
  rewrite Henv. destruct (new_client (String c k)) as [chat|e] eqn:Hclient; cbn.
  - by split.
  - split; [done |]. by exists (String c k).
Qed.

(** ** Making one more directory level *)


(** ** Saving the texts *)

Lemma append_inj_r (a b t : string) : a +:+ t = b +:+ t -> a = b.
Proof.
  intros Heq. apply (f_equal String.rev) in Heq. rewrite !rev_append in Heq.
  apply String.app_inj in Heq. by rewrite <- (rev_rev a), Heq, rev_rev.
Qed.








Section Save.
Variables (today : Date) (hs : list (string * string)) (base_dir : string).

Local Abbreviation out_dir := (PyPath.of_string base_dir // strftime_ymd today).
Local Abbreviation json_path := (out_dir // "horoscopes.json").

Hypothesis Hkeys : NoDup (map fst hs).
Hypothesis Hnames :
  forallb (fun sign => simple_name (sign +:+ ".txt")) (map fst hs) = true.


End Save.






(** ** The first client: polling and download *)

Lemma write_ok_insert (p : Path) (c : content) (w w' : World) :
  PyOS.write p c w = (Ok tt, w') ->
  fs w' = <[p := File c]> (fs w) /\ network w' = network w /\
  trace w' = (trace w ++ [EvWrite p c])%list.
Proof.
  unfold PyOS.write, bind, log, PyOS.on_fs. simpl.
  destruct (PyOS.write_file (fs w) p c) as [f'|e] eqn:Hw; [|done].
  intros [= <-]. simpl. split; [|done]. unfold PyOS.write_file in Hw.
  destruct (PyOS.node_at (fs w) p) as [[|c0]|];
    destruct (PyOS.node_at (fs w) (PyPath.parent p)) as [[|c1]|];
    try done; by injection Hw as <-.
Qed.

Lemma live_download_result (job : VideoJob) (out_dir : Path) (url : string)
    (w w' : World) (job' : VideoJob) :
  VeoClientLive.download job out_dir url w = (Ok job', w') ->
  job' = VeoClientLive.set_done job (PyPath.str (mp4_path out_dir job)) /\
  exists b, fs w' !! mp4_path out_dir job = Some (File (BinaryFile b)).
Proof.
  unfold VeoClientLive.download. unfold bind at 1.
  destruct (PyOS.mkdir (out_dir // "renders") true w) as [[[]|e] w1]; [|done].
  unfold bind at 1, PyOS.request, bind at 1, log at 1.
  cbn [network with_trace].
  destruct (network w1) as [|resp rest]; [done |].
  unfold bind at 1, PyOS.raise_for_status.
  destruct (status_ok resp); [|done]. unfold ret at 1. unfold bind at 1.
  match goal with
  | |- context [PyOS.write ?p ?c ?w2] =>
      destruct (PyOS.write p c w2) as [[[]|e] w3] eqn:Hw; [|done]
  end.
  unfold ret. intros [= <- <-]. split; [done |].
  apply write_ok_insert in Hw as (Hfs & _). exists (body resp).
  unfold mp4_path. by rewrite Hfs, lookup_insert_eq.
Qed.

Lemma live_poll_loop_result (script : list Response) (job : VideoJob)
    (out_dir : Path) (w w' : World) (job' : VideoJob) :
  VeoClientLive.poll_loop script job out_dir w = (Ok job', w') ->
  (job' = VeoClientLive.set_failed job /\ fs w' = fs w) \/
  (job' = VeoClientLive.set_done job (PyPath.str (mp4_path out_dir job)) /\
   exists b, fs w' !! mp4_path out_dir job = Some (File (BinaryFile b))).
Proof.
  revert w. induction script as [|r rest IH]; intros w; simpl.
  - by unfold bind, log, raise.
  - unfold bind at 1, log at 1. unfold bind at 1. unfold bind at 1.
    unfold PyOS.raise_for_status. destruct (status_ok r); [|done].
    unfold ret at 1. destruct (json_done r).
    + destruct (json_videoUri r) as [[|c u]|].
      * unfold ret. intros [= <- <-]. by left.
      * intros Hd. right. by apply live_download_result in Hd.
      * unfold ret. intros [= <- <-]. by left.
    + unfold bind at 1, log at 1. intros Hrec.
      apply IH in Hrec as [[-> Hfs]|Hdone]; [left | by right].
      by rewrite Hfs.
Qed.

(** X6: whatever the remote service answers, a job that the first
    client's [poll_until_done] returns has its id and scene unchanged and
    is either failed, with its video path and the file system untouched,
    or done, with [renders/<id>.mp4] as its video path and that file on
    disk holding a downloaded body; it never comes back queued. *)
Theorem live_poll_terminal_status (job : VideoJob) (out_dir : Path)
    (w w' : World) (job' : VideoJob) :
  VeoClientLive.poll_until_done job out_dir w = (Ok job', w') ->
  id job' = id job /\ scene job' = scene job /\
  ((status job' = "failed" /\ video_path job' = video_path job /\
    fs w' = fs w) \/
   (status job' = "done" /\
    video_path job' = Some (PyPath.str (mp4_path out_dir job)) /\
    exists b, fs w' !! mp4_path out_dir job = Some (File (BinaryFile b)))).
Proof.
  unfold VeoClientLive.poll_until_done. intros Hloop.
  apply live_poll_loop_result in Hloop as [[-> Hfs]|[-> Hfile]].
  - split; [done |]. split; [done |]. by left.
  - split; [done |]. split; [done |]. by right.
Qed.

Lemma live_poll_terminal_status_witness :
  exists job' w',
    VeoClientLive.poll_until_done
      job7 (PyPath.of_string "./out") world_live = (Ok job', w') /\
    id job' = "op-7" /\ status job' = "failed" /\ fs w' = fs world_live.
Proof.
  destruct (VeoClientLive.poll_until_done job7
              (PyPath.of_string "./out") world_live) as [[job'|e] w'] eqn:Hrun;
    [|apply (f_equal fst) in Hrun; vm_compute in Hrun; discriminate Hrun].
  exists job', w'. split; [reflexivity |].
  destruct (live_poll_terminal_status _ _ _ _ _ Hrun)
    as (Hid & _ & [(Hst & _ & Hfs)|(Hst & _)]).
  - by split.
  - apply (f_equal fst) in Hrun. vm_compute in Hrun. injection Hrun as <-.
    discriminate Hst.
Defined.

Section LivePoll.
Variables (job : VideoJob) (out_dir : Path).

Local Abbreviation renders := (out_dir // "renders").
Local Abbreviation op :=
  (VeoClientLive.BASE_URL +:+ "/operations/" +:+ id job).
Local Abbreviation waiting :=
  (fun r => status_ok r = true /\ json_done r = false).
Local Abbreviation polls :=
  (fun pend : list Response =>
     concat (map (fun _ => [EvGet op; EvSleep 5]) pend)).

(** One turn of the loop on a response that is not done yet. *)
Lemma live_poll_loop_pending (r : Response) (rest : list Response) (w : World) :
  waiting r ->
  VeoClientLive.poll_loop (r :: rest) job out_dir w =
  VeoClientLive.poll_loop rest job out_dir
    {| fs := fs w; environ := environ w; clock := clock w;
       clock_reads := clock_reads w; network := rest;
       trace := trace w ++ [EvGet op; EvSleep 5] |}.
Proof.
  intros [Hok Hnd]. cbn [VeoClientLive.poll_loop].
  unfold bind at 1, log at 1. unfold bind at 1. unfold bind at 1.
  unfold PyOS.raise_for_status. rewrite Hok, Hnd. unfold ret at 1.
  unfold bind at 1, log at 1. norm_world. by rewrite <- app_assoc.
Qed.

Lemma live_poll_loop_http_error (pend : list Response) (bad : Response)
    (script : list Response) (w : World) :
  Forall waiting pend -> status_ok bad = false ->
  VeoClientLive.poll_loop (pend ++ bad :: script) job out_dir w =
  (Raise HTTPError,
   {| fs := fs w; environ := environ w; clock := clock w;
      clock_reads := clock_reads w; network := script;
      trace := trace w ++ polls pend ++ [EvGet op] |}).
Proof.
  intros Hpend Hbad. revert w.
  induction pend as [|p pend IH]; intros w.
  - cbn [app VeoClientLive.poll_loop map concat].
    unfold bind at 1, log at 1. unfold bind at 1. unfold bind at 1.
    unfold PyOS.raise_for_status. rewrite Hbad. reflexivity.
  - apply Forall_cons in Hpend as [Hp Hpend].
    rewrite <- app_comm_cons, (live_poll_loop_pending _ _ _ Hp), (IH Hpend).
    norm_world. cbn [map concat]. by rewrite <- !app_assoc.
Qed.

End LivePoll.



(** X8: an error status on any poll ends the first client's
    [poll_until_done] with an [HTTPError], without retry: after [k]
    "not done" answers it has slept [k] times, has asked [k + 1] times,
    and has touched no file. *)
Theorem live_poll_http_error (job : VideoJob) (out_dir : Path) (w : World)
    (pend : list Response) (bad : Response) (script : list Response) :
  let op := VeoClientLive.BASE_URL +:+ "/operations/" +:+ id job in
  network w = (pend ++ bad :: script)%list ->
  Forall (fun r => status_ok r = true /\ json_done r = false) pend ->
  status_ok bad = false ->
  VeoClientLive.poll_until_done job out_dir w =
  (Raise HTTPError,
   {| fs := fs w; environ := environ w; clock := clock w;
      clock_reads := clock_reads w; network := script;
      trace := trace w ++
               concat (map (fun _ => [EvGet op; EvSleep 5]) pend) ++
               [EvGet op] |}).
Proof.
  intros op Hnet Hpend Hbad. unfold VeoClientLive.poll_until_done.
  rewrite Hnet. by apply live_poll_loop_http_error.
Qed.

Lemma live_poll_http_error_witness :
  (VeoClientLive.poll_until_done job7 (PyPath.of_string "./out")
     (with_network world0 [pending; rejected; pending])).1 = Raise HTTPError.
Proof.
  rewrite (live_poll_http_error job7 (PyPath.of_string "./out")
             (with_network world0 [pending; rejected; pending])
             [pending] rejected [pending]);
    [reflexivity | reflexivity | by repeat constructor | reflexivity].
Defined.

(** ** A job id that is a path *)







(** ** A run with any client *)

Lemma mkdir_parents_on_file (f : gmap Path node) (p : Path) (c : content) :
  PyOS.node_at f p = Some (File c) ->
  PyOS.mkdir_parents_exist_ok f p = Raise (FileExistsError (PyPath.str p)).
Proof.
  intros Hfile. unfold PyOS.mkdir_parents_exist_ok.
  rewrite mkdir_parents_rev_unfold. cbv zeta. rewrite rev_involutive.
  destruct p as [r l]. cbn [fst snd]. unfold PyOS.os_mkdir, PyOS.is_dir.
  by rewrite Hfile.
Qed.



(** X10: when the output path names an existing regular file, [run]
    stops at its first statement with [FileExistsError]: whatever the
    client, the transformers, the generator and the template, nothing is
    generated, written or submitted, and the file system is untouched. *)
Theorem run_out_dir_is_file `{FormatBuiltins}
    (generate : Date -> result (list (string * string)))
    (self : HoroscopeVeoPipeline) (date : Date) (out_dir : Path)
    (render : RenderSpec) (template style : string) (w : World) (c : content) :
  PyOS.node_at (fs w) out_dir = Some (File c) ->
  run generate self date out_dir render template style w =
  (Raise (FileExistsError (PyPath.str out_dir)),
   with_trace w (trace w ++ [EvMkdir out_dir])).
Proof.
  intros Hfile. unfold run, bind at 1, PyOS.mkdir, bind at 1, log at 1.
  unfold PyOS.on_fs. norm_world. by rewrite (mkdir_parents_on_file _ _ c).
Qed.

Lemma run_out_dir_is_file_witness :
  @run bare_builtins generate_daily_horoscopes_mock pipeline0 date0
       (PyPath.of_string "./out") render0 DEFAULT_TEMPLATE
       "whimsical_astrology"
       (with_fs world0 {[ PyPath.of_string "out" := File (TextFile "notes") ]}) =
  (Raise (FileExistsError "out"),
   with_trace
     (with_fs world0 {[ PyPath.of_string "out" := File (TextFile "notes") ]})
     [EvMkdir (PyPath.of_string "out")]).
Proof.
  rewrite (@run_out_dir_is_file bare_builtins _ _ _ _ _ _ _ _ (TextFile "notes"));
    [reflexivity | vm_compute; reflexivity].
Defined.





Lemma comprehension_length {A B} (xs : list A) (f : A -> result B)
    (ys : list B) :
  comprehension xs f = Ok ys -> length ys = length xs.
Proof.
  revert ys. induction xs as [|x xs IH]; intros ys; simpl.
  - by intros [= <-].
  - destruct (f x) as [y|e]; [|done]. simpl.
    destruct (comprehension xs f) as [ys'|e]; [|done]. simpl.
    intros [= <-]. simpl. by rewrite (IH ys').
Qed.

Lemma write_prompts_length (ts : list PromptTransformer) (out_dir : Path)
    (scenes scenes' : list SceneSpec) (w w' : World) :
  write_prompts ts out_dir scenes w = (Ok scenes', w') ->
  length scenes' = length scenes.
Proof.
  revert w w' scenes'.
  induction scenes as [|s scenes IH]; intros w w' scenes'; simpl.
  - unfold ret. by intros [= <- _].
  - unfold bind at 1.
    destruct (PyOS.write _ _ w) as [[[]|e] w1]; [|done].
    unfold bind at 1.
    destruct (write_prompts ts out_dir scenes w1) as [[rest|e] w2] eqn:Hrest;
      [|done].
    unfold ret. intros [= <- _]. simpl. by rewrite (IH _ _ _ Hrest).
Qed.

Lemma for_collect_length {A B} (xs : list A) (body : A -> M B)
    (w w' : World) (ys : list B) :
  for_collect xs body w = (Ok ys, w') -> length ys = length xs.
Proof.
  revert w w' ys. induction xs as [|x xs IH]; intros w w' ys; simpl.
  - unfold ret. by intros [= <- _].
  - unfold bind. destruct (body x w) as [[y|e] w1]; [|done].
    destruct (for_collect xs body w1) as [[ys'|e] w2] eqn:Hys; [|done].
    unfold ret. intros [= <- _]. simpl. by rewrite (IH _ _ _ Hys).
Qed.

(** X13: whatever the client, the transformers and the template, a run
    that returns has got texts from the generator and returns exactly one
    job per text; its last effect is the write of [manifest.json], and
    the manifest on disk lists the jobs returned, in order, with the date
    in ISO form and the aspect ratio and duration of the render spec. *)
Theorem run_returns_one_job_per_text `{FormatBuiltins}
    (generate : Date -> result (list (string * string)))
    (self : HoroscopeVeoPipeline) (date : Date) (out_dir : Path)
    (render : RenderSpec) (template style : string) (w w' : World)
    (jobs : list VideoJob) :
  run generate self date out_dir render template style w = (Ok jobs, w') ->
  let m := {| manifest_date := PyDate.isoformat date;
              manifest_aspect_ratio := aspect_ratio render;
              manifest_seconds := seconds render;
              manifest_jobs := map job_entry jobs |} in
  (exists scripts, generate date = Ok scripts /\ length jobs = length scripts) /\
  fs w' !! (out_dir // "manifest.json") = Some (File (JsonFile m)) /\
  exists before,
    trace w' = (before ++ [EvWrite (out_dir // "manifest.json") (JsonFile m)])%list.
Proof.
  intros Hrun m. unfold run in Hrun.
  unfold bind at 1 in Hrun.
  destruct (PyOS.mkdir out_dir true w) as [[[]|e] w1]; [|done].
  unfold bind at 1 in Hrun.
  destruct (PyOS.mkdir (out_dir // "prompts") false w1) as [[[]|e] w2]; [|done].
  unfold bind at 1 in Hrun.
  destruct (PyOS.mkdir (out_dir // "renders") false w2) as [[[]|e] w3]; [|done].
  unfold bind at 1, lift at 1 in Hrun.
  destruct (generate date) as [scripts|e] eqn:Hgen; [|done].
  unfold bind at 1, lift at 1 in Hrun.
  destruct (comprehension scripts _) as [scenes|e] eqn:Hscenes; [|done].
  unfold bind at 1 in Hrun.
  destruct (write_prompts (transformers self) out_dir scenes w3)
    as [[scenes'|e] w4] eqn:Hwp; [|done].
  unfold bind at 1 in Hrun.
  destruct (run_jobs (veo self) out_dir scenes' w4) as [[jobs'|e] w5] eqn:Hjobs;
    [|done].
  unfold bind at 1 in Hrun.
  destruct (PyOS.write (out_dir // "manifest.json") _ w5) as [[[]|e] w6] eqn:Hw;
    [|done].
  unfold ret in Hrun. injection Hrun as <- <-.
  apply write_ok_insert in Hw as (Hfs & _ & Htrace).
  split; [|split].
  - exists scripts. split; [done |].
    apply for_collect_length in Hjobs. apply write_prompts_length in Hwp.
    apply comprehension_length in Hscenes. congruence.
  - rewrite Hfs. apply lookup_insert_eq.
  - by exists (trace w5).
Qed.

Lemma run_returns_one_job_per_text_witness :
  length jobs0 = 12%nat /\
  exists m, fs result0.2 !! PyPath.of_string "out/manifest.json" =
              Some (File (JsonFile m)) /\
            manifest_jobs m = map job_entry jobs0.
Proof.
  assert (result0 = (Ok jobs0, result0.2)) as Hrun.
  { assert (is_ok result0.1 = true) as Hok by (vm_compute; reflexivity).
    unfold jobs0. destruct result0 as [[jobs|e] w']; [reflexivity | done]. }
  destruct (@run_returns_one_job_per_text bare_builtins _ _ _ _ _ _ _ _ _ _ Hrun)
    as ((scripts & Hgen & Hlen) & Hfs & _).
  split.
  - rewrite Hlen. injection Hgen as <-. reflexivity.
  - eexists. split; [exact Hfs | reflexivity].
Defined.

Section RunPrefix.
Context `{FormatBuiltins}.
Variable generate : Date -> result (list (string * string)).
Variables (self : HoroscopeVeoPipeline) (date : Date) (out_dir : Path).
Variables (render : RenderSpec) (ps : list piece) (style : string).
Variable scripts : list (string * string).

Local Abbreviation planner :=
  {| planner_render := render; planner_style_tag := style |}.
Local Abbreviation scenes :=
  (map (apply_transformers (transformers self))
       (map (built_scene planner ps) scripts)).

Hypothesis Hgen : generate date = Ok scripts.
Hypothesis Hps : forallb piece_ok ps = true.
Hypothesis Hnames :
  forallb (fun s => simple_name (s +:+ ".txt")) (map fst scripts) = true.

End RunPrefix.



(** ** The job ids of the second client *)

Lemma for_collect_inv2 {A B} (R : A -> B -> Prop) (xs : list A)
    (body : A -> M B) (w w' : World) (ys : list B) :
  (forall x w0 y w1, body x w0 = (Ok y, w1) -> R x y) ->
  for_collect xs body w = (Ok ys, w') -> Forall2 R xs ys.
Proof.
  intros Hbody. revert w w' ys.
  induction xs as [|x xs IH]; intros w w' ys; simpl.
  - unfold ret. intros [= <- _]. constructor.
  - unfold bind. destruct (body x w) as [[y|e] w1] eqn:Hy; [|done].
    destruct (for_collect xs body w1) as [[ys'|e] w2] eqn:Hys; [|done].
    unfold ret. intros [= <- _]. constructor; [by eapply Hbody | by eapply IH].
Qed.

Lemma append_sep_inj c (a b x y : string) :
  PyStr.mem c a = false -> PyStr.mem c b = false ->
  a +:+ String c x = b +:+ String c y -> a = b.
Proof.
  revert b. induction a as [|d a IH]; intros [|e b]; simpl; try done.
  - intros _ Hb [= <- _]. by rewrite Ascii.eqb_refl in Hb.
  - intros Ha _ [= -> _]. by rewrite Ascii.eqb_refl in Ha.
  - destruct (Ascii.eqb c d) eqn:Hd; [done |].
    destruct (Ascii.eqb c e) eqn:He; [done |].
    intros Ha Hb [= -> Heq]. f_equal. by apply (IH b).
Qed.

Lemma NoDup_map_finer {A B C} (f : A -> B) (g : A -> C) (l : list A) :
  (forall x y, In x l -> In y l -> f x = f y -> g x = g y) ->
  NoDup (map g l) -> NoDup (map f l).
Proof.
  induction l as [|a l IH]; intros Hfg Hnd; simpl; [constructor |].
  simpl in Hnd. apply NoDup_cons in Hnd as [Hnotin Hnd].
  apply NoDup_cons. split.
  - intros Hin. apply Hnotin.
    apply list_elem_of_In, in_map_iff in Hin as (y & Hy & Hyl).
    apply list_elem_of_In, in_map_iff. exists y. split; [|done].
    symmetry. apply Hfg; [by left | by right | done].
  - apply IH; [|done]. intros x y Hx Hy. apply Hfg; by right.
Qed.

Lemma stub_job_of_scene (key : string) (out_dir : Path) (s : SceneSpec)
    (w0 : World) (j : VideoJob) (w1 : World) :
  (let! job := submit (VeoClient.make key) s in
   log (EvSubmitted (id job)) ;;;
   let! job := poll_until_done (VeoClient.make key) job out_dir in
   log (EvPolled (id job) (status job)) ;;; ret job) w0 = (Ok j, w1) ->
  scene j = s /\
  exists t, id j = "veo_" +:+ PyStr.lower (sign s) +:+ "_" +:+ PyStr.str_of_int t.
Proof.
  cbn [submit poll_until_done VeoClient.make].
  unfold bind at 1. unfold VeoClient.submit, bind at 1, PyOS.utc_timestamp, ret at 1.
  unfold bind at 1, log at 1. unfold bind at 1.
  match goal with
  | |- context [VeoClient.poll_until_done ?job ?out ?w] =>
      destruct (stub_poll_result job out w) as [(e & w2 & ->)|(w2 & ->)]
  end; [done |].
  unfold bind, log, ret. intros [= <- _]. cbn [scene id]. eauto.
Qed.

Lemma comprehension_signs `{FormatBuiltins} (self : ScenePlanner)
    (template : string) (scripts : list (string * string))
    (scenes : list SceneSpec) :
  comprehension scripts (fun '(sign, text) =>
                           build_scene self sign text template) = Ok scenes ->
  map sign scenes = map fst scripts.
Proof.
  revert scenes. induction scripts as [|[s t] scripts IH]; intros scenes; simpl.
  - by intros [= <-].
  - unfold build_scene at 1.
    destruct (PyFormat.format template (scene_kwargs self s t)) as [p|e];
      [|done]. simpl.
    destruct (comprehension scripts _) as [rest|e]; [|done]. simpl.
    intros [= <-]. simpl. by rewrite (IH rest).
Qed.

Lemma write_prompts_signs (ts : list PromptTransformer) (out_dir : Path)
    (scenes scenes' : list SceneSpec) (w w' : World) :
  write_prompts ts out_dir scenes w = (Ok scenes', w') ->
  scenes' = map (apply_transformers ts) scenes.
Proof.
  revert w w' scenes'.
  induction scenes as [|s scenes IH]; intros w w' scenes'; simpl.
  - unfold ret. by intros [= <- _].
  - unfold bind at 1.
    destruct (PyOS.write _ _ w) as [[[]|e] w1]; [|done].
    unfold bind at 1.
    destruct (write_prompts ts out_dir scenes w1) as [[rest|e] w2] eqn:Hrest;
      [|done].
    unfold ret. intros [= <- _]. by rewrite (IH _ _ _ Hrest).
Qed.

Lemma zodiac_lower_nodup : NoDup (map PyStr.lower ZODIAC_SIGNS).
Proof. apply (bool_decide_unpack _). vm_compute. exact I. Qed.

Lemma zodiac_lower_plain (s : string) :
  In s ZODIAC_SIGNS -> PyStr.mem "_" (PyStr.lower s) = false.
Proof.
  unfold ZODIAC_SIGNS. simpl.
  intros Hin. repeat (destruct Hin as [<-|Hin]; [reflexivity |]). destruct Hin.
Qed.

Lemma stub_jobs_ids_nodup (scenes : list SceneSpec) (jobs : list VideoJob) :
  Forall2 (fun s j =>
             scene j = s /\
             exists t, id j = "veo_" +:+ PyStr.lower (sign s) +:+ "_" +:+
                              PyStr.str_of_int t) scenes jobs ->
  map sign scenes = ZODIAC_SIGNS ->
  map scene jobs = scenes /\ NoDup (map id jobs) /\
  Forall (fun j => simple_name (id j +:+ ".mp4") = true) jobs.
Proof.
  intros Hrel Hsigns.
  assert (map scene jobs = scenes) as Hscenes.
  { clear Hsigns. induction Hrel as [|s j scenes' jobs' [Hs _] _ IH]; [done |].
    simpl. by rewrite Hs, IH. }
  assert (Forall (fun j =>
            exists t, id j = "veo_" +:+ PyStr.lower (sign (scene j)) +:+ "_" +:+
                             PyStr.str_of_int t) jobs) as Hids.
  { clear Hsigns Hscenes.
    induction Hrel as [|s j scenes' jobs' [Hs Ht] _ IH]; [constructor |].
    constructor; [by rewrite Hs | done]. }
  assert (map (fun j => sign (scene j)) jobs = ZODIAC_SIGNS) as Hjsigns
    by by rewrite <- Hsigns, <- Hscenes, map_map.
  split; [exact Hscenes |]. split.
  2:{ apply Forall_forall. intros j Hj. rewrite Forall_forall in Hids.
      destruct (Hids j Hj) as [t ->]. apply simple_job_file.
      rewrite <- Hjsigns. by apply (in_map (fun j => sign (scene j))), list_elem_of_In. }
  apply (NoDup_map_finer id (fun j => PyStr.lower (sign (scene j)))).
  - rewrite Forall_forall in Hids.
    assert (forall j, In j jobs ->
              PyStr.mem "_" (PyStr.lower (sign (scene j))) = false) as Hplain.
    { intros j Hj. apply zodiac_lower_plain. rewrite <- Hjsigns.
      by apply (in_map (fun j => sign (scene j))). }
    intros j1 j2 Hj1 Hj2 Heq.
    destruct (Hids j1) as [t1 H1]; [by apply list_elem_of_In |].
    destruct (Hids j2) as [t2 H2]; [by apply list_elem_of_In |].
    rewrite H1, H2 in Heq. apply String.app_inj in Heq.
    change ("_" +:+ PyStr.str_of_int t1)
      with (String "_" (PyStr.str_of_int t1)) in Heq.
    change ("_" +:+ PyStr.str_of_int t2)
      with (String "_" (PyStr.str_of_int t2)) in Heq.
    apply append_sep_inj in Heq; [done | by apply Hplain | by apply Hplain].
  - rewrite <- (map_map (fun j => sign (scene j)) PyStr.lower), Hjsigns.
    apply zodiac_lower_nodup.
Qed.

(** X15: the jobs a run with the second client returns for the twelve
    signs have pairwise distinct ids, and so pairwise distinct video
    files, whatever the clock reads (it may stand still): the ids differ
    in the sign they embed.  This holds for every template, transformer
    list and out directory for which the run returns. *)
Theorem stub_job_ids_distinct `{FormatBuiltins}
    (generate : Date -> result (list (string * string)))
    (key : string) (ts : list PromptTransformer) (date : Date)
    (out_dir : Path) (render : RenderSpec) (template style : string)
    (w w' : World) (scripts : list (string * string)) (jobs : list VideoJob) :
  generate date = Ok scripts ->
  map fst scripts = ZODIAC_SIGNS ->
  run generate {| veo := VeoClient.make key; transformers := ts |}
      date out_dir render template style w = (Ok jobs, w') ->
  map (fun j => sign (scene j)) jobs = ZODIAC_SIGNS /\
  NoDup (map id jobs) /\
  NoDup (map (mp4_path out_dir) jobs).
Proof.
  intros Hgen Hsigns Hrun. unfold run in Hrun.
  unfold bind at 1 in Hrun.
  destruct (PyOS.mkdir out_dir true w) as [[[]|e] w1]; [|done].
  unfold bind at 1 in Hrun.
  destruct (PyOS.mkdir (out_dir // "prompts") false w1) as [[[]|e] w2]; [|done].
  unfold bind at 1 in Hrun.
  destruct (PyOS.mkdir (out_dir // "renders") false w2) as [[[]|e] w3]; [|done].
  unfold bind at 1, lift at 1 in Hrun. rewrite Hgen in Hrun.
  unfold bind at 1, lift at 1 in Hrun.
  destruct (comprehension scripts _) as [scenes|e] eqn:Hscenes; [|done].
  unfold bind at 1 in Hrun. cbn [veo transformers] in Hrun.
  destruct (write_prompts ts out_dir scenes w3) as [[scenes'|e] w4] eqn:Hwp;
    [|done].
  unfold bind at 1 in Hrun.
  destruct (run_jobs (VeoClient.make key) out_dir scenes' w4)
    as [[jobs'|e] w5] eqn:Hjobs; [|done].
  unfold bind at 1 in Hrun.
  destruct (PyOS.write (out_dir // "manifest.json") _ w5) as [[[]|e] w6];
    [|done].
  unfold ret in Hrun. injection Hrun as <- _.
  apply comprehension_signs in Hscenes. apply write_prompts_signs in Hwp.
  assert (map sign scenes' = ZODIAC_SIGNS) as Hsigns'.
  { rewrite Hwp, map_map. rewrite <- Hsigns, <- Hscenes. apply map_ext.
    intros s. apply apply_transformers_sign. }
  unfold run_jobs in Hjobs.
  apply (for_collect_inv2 _ _ _ _ _ _ (stub_job_of_scene key out_dir)) in Hjobs.
  destruct (stub_jobs_ids_nodup _ _ Hjobs Hsigns') as (Hsc & Hnd & Hsimple).
  assert (map (fun j => sign (scene j)) jobs' = ZODIAC_SIGNS) as Hjsigns
    by by rewrite <- Hsigns', <- Hsc, map_map.
  split; [exact Hjsigns |]. split; [exact Hnd |].
  apply (NoDup_map_finer _ id); [|exact Hnd].
  intros j1 j2 Hj1 Hj2 Heq. rewrite Forall_forall in Hsimple.
  unfold mp4_path in Heq.
  rewrite !(div_simple _ (_ +:+ ".mp4")) in Heq
    by by apply Hsimple, list_elem_of_In.
  apply child_inj in Heq as [_ Heq]. by apply append_inj_r in Heq.
Qed.

Lemma stub_job_ids_distinct_witness :
  exists jobs w',
    @run bare_builtins generate_daily_horoscopes_mock pipeline0 date0
         (PyPath.of_string "./out") render0 DEFAULT_TEMPLATE
         "whimsical_astrology" world_no_media = (Ok jobs, w') /\
    NoDup (map id jobs) /\ length jobs = 12%nat.
Proof.
  destruct (@run bare_builtins generate_daily_horoscopes_mock pipeline0 date0
              (PyPath.of_string "./out") render0 DEFAULT_TEMPLATE
              "whimsical_astrology" world_no_media) as [[jobs|e] w'] eqn:Hrun;
    [|apply (f_equal fst) in Hrun; vm_compute in Hrun; discriminate Hrun].
  exists jobs, w'. split; [reflexivity |].
  destruct (@stub_job_ids_distinct bare_builtins generate_daily_horoscopes_mock
              "demo-key" [IdentityTransformer; CyberpunkPunchup] date0
              (PyPath.of_string "./out") render0 DEFAULT_TEMPLATE
              "whimsical_astrology" world_no_media w' scripts0 jobs
              eq_refl eq_refl Hrun) as (Hsigns & Hnd & _).
  split; [exact Hnd |].
  by rewrite <- (length_map (fun j => sign (scene j))), Hsigns.
Defined.

(** ** Templates with escaped braces *)

Section EscapedFormat.
Context `{FormatBuiltins}.
Variable kwargs : list (string * value).
Variable expand_spec : string -> result string.

Local Abbreviation render_scan := (PyFormat.render_scan kwargs expand_spec).

Lemma render_escaped (s rest : string) :
  render_scan PyFormat.SLit (escape_braces s +:+ rest) =
  rbind (render_scan PyFormat.SLit rest) (fun out => Ok (s +:+ out)).
Proof.
  induction s as [|c s IH].
  - simpl. by rewrite rbind_ret.
  - cbn [escape_braces].
    destruct (Ascii.eqb c "{") eqn:Ho; [|destruct (Ascii.eqb c "}") eqn:Hc].
    + apply Ascii.eqb_eq in Ho as ->. cbn [orb String.append].
      rewrite (render_scan_goto _ _ _ _ _ PyFormat.SOpen) by reflexivity.
      rewrite (render_scan_emit _ _ _ _ _ (PyFormat.TChar "{")) by reflexivity.
      cbn [PyFormat.render_tokens].
      by rewrite render_scan_pair, IH, rbind_assoc.
    + apply Ascii.eqb_eq in Hc as ->. cbn [orb String.append].
      rewrite (render_scan_goto _ _ _ _ _ PyFormat.SClose) by reflexivity.
      rewrite (render_scan_emit _ _ _ _ _ (PyFormat.TChar "}")) by reflexivity.
      cbn [PyFormat.render_tokens].
      by rewrite render_scan_pair, IH, rbind_assoc.
    + cbn [orb String.append].
      rewrite (render_scan_emit _ _ _ _ _ (PyFormat.TChar c)).
      * cbn [PyFormat.render_tokens].
        by rewrite render_scan_pair, IH, rbind_assoc.
      * unfold PyFormat.step. by rewrite Ho, Hc.
Qed.
End EscapedFormat.

Lemma render_escaped_pieces `{FormatBuiltins} (self : ScenePlanner)
    (sign text : string) (expand_spec : string -> result string)
    (ps : list piece) :
  PyFormat.render_scan (scene_kwargs self sign text) expand_spec PyFormat.SLit
    (escaped_template_of ps) =
  Ok (fill (placeholder_value self sign text) ps).
Proof.
  induction ps as [|[s|h] ps IH]; cbn [escaped_template_of fill].
  - reflexivity.
  - by rewrite render_escaped, IH.
  - by rewrite render_hole, IH.
Qed.

(** X16: [build_scene] on any template written as literal text with
    every brace doubled and the four placeholders in between: it never
    fails, and the prompt is the literal text with single braces and each
    placeholder replaced by its value; doubling the braces is all it takes
    to put arbitrary text into a template. *)
Theorem build_scene_escaped_template `{FormatBuiltins}
    (self : ScenePlanner) (sign text : string) (ps : list piece) :
  build_scene self sign text (escaped_template_of ps) =
  Ok {| sign := sign; script_text := text;
        prompt := fill (placeholder_value self sign text) ps;
        render := planner_render self; style_tag := planner_style_tag self |}.
Proof.
  unfold build_scene, PyFormat.format. cbn [PyFormat.build_string].
  by rewrite render_escaped_pieces.
Qed.

(** ** The command *)

Lemma pipeline_init_build (client : Client) (args : Args) :
  pipeline_init client (Some (build_transformers args)) =
  {| veo := client; transformers := build_transformers args |}.
Proof. unfold build_transformers. by destruct (args_cyberpunk args). Qed.

Lemma build_transformers_prompt (args : Args) (scene : SceneSpec) :
  prompt (apply_transformers (build_transformers args) scene) =
  prompt scene +:+
  (if args_cyberpunk args
   then " Add neon signage in the distance, subtle rain streaks, and UI scanlines."
   else "").
Proof.
  unfold build_transformers. destruct (args_cyberpunk args); simpl.
  - reflexivity.
  - by rewrite append_empty_r.
Qed.

Lemma stub_init_ok (w : World) :
  VeoClient.init None w =
  (Ok (VeoClient.make (default "demo-key" (environ w !! "VEO_API_KEY"))), w).
Proof. reflexivity. Qed.

Section MainRun.
Context `{FormatBuiltins}.
Variable generate : Date -> result (list (string * string)).
Variables (today : Date) (args : Args).
Variable scripts : list (string * string).

Local Abbreviation date := (default today (args_date args)).
Local Abbreviation render :=
  {| aspect_ratio := args_aspect args; seconds := 8; fps := args_fps args;
     seed := None |}.
Local Abbreviation out_dir := (PyPath.of_string (args_out args)).
Local Abbreviation scenes :=
  (final_scenes (build_transformers args) render (args_style args)
                DEFAULT_PIECES scripts).

Hypothesis Hgen : generate date = Ok scripts.
Hypothesis Hsigns : map fst scripts = ZODIAC_SIGNS.

Lemma main_stub_ok (w : World) :
  out_dir_usable (fs w) out_dir ZODIAC_SIGNS = true ->
  exists f1,
    PyOS.mkdir_parents_exist_ok (fs w) out_dir = Ok f1 /\
    let jobs := stub_jobs out_dir (clock w) (clock_reads w) scenes in
    let m := make_manifest date render jobs in
    main generate today args w =
    (Ok tt,
     {| fs := final_fs out_dir scenes m f1; environ := environ w;
        clock := clock w; clock_reads := clock_reads w + 12;
        network := network w;
        trace := trace w ++
                 [EvMkdir out_dir; EvMkdir (out_dir // "prompts");
                  EvMkdir (out_dir // "renders")] ++
                 map (prompt_event out_dir) scenes ++
                 concat (map (job_events out_dir) jobs) ++
                 [EvWrite (out_dir // "manifest.json") (JsonFile m);
                  EvPrint 12 (PyPath.str (out_dir // "manifest.json"))] |}).
Proof.
  intros Huse.
  destruct (run_stub_zodiac generate
              (default "demo-key" (environ w !! "VEO_API_KEY"))
              (build_transformers args) date out_dir render DEFAULT_PIECES
              (args_style args) scripts Hgen Hsigns default_pieces_ok w Huse)
    as (f1 & Hmk & Hrun).
  exists f1. split; [exact Hmk |]. cbv zeta in *.
  unfold main, main_with. unfold bind at 1. rewrite stub_init_ok.
  rewrite pipeline_init_build. unfold bind at 1.
  change DEFAULT_TEMPLATE with (template_of DEFAULT_PIECES).
  rewrite Hrun. unfold log. norm_world.
  destruct (stub_jobs_scenes out_dir (clock w) (clock_reads w) scenes)
    as [_ ->].
  rewrite (scenes_length (build_transformers args) render DEFAULT_PIECES
             (args_style args) scripts Hsigns).
  by rewrite <- !app_assoc.
Qed.
End MainRun.






(** ** What the frame rate changes *)

Lemma fill_ext (v v' : placeholder -> string) (ps : list piece) :
  (forall h, v h = v' h) -> fill v ps = fill v' ps.
Proof.
  intros Hv. induction ps as [|[s|h] ps IH]; simpl; [done | |].
  - by rewrite IH.
  - by rewrite Hv, IH.
Qed.

Lemma final_scenes_same (args : Args) (r r' : RenderSpec) (style : string)
    (ps : list piece) (scripts : list (string * string)) :
  aspect_ratio r = aspect_ratio r' -> seconds r = seconds r' ->
  Forall2 same_outputs
    (final_scenes (build_transformers args) r style ps scripts)
    (final_scenes (build_transformers args) r' style ps scripts).
Proof.
  intros Ha Hs. unfold final_scenes.
  induction scripts as [|sc scripts IH]; cbn [map]; constructor; [|exact IH].
  unfold same_outputs.
  rewrite !apply_transformers_sign, !build_transformers_prompt.
  rewrite (apply_transformers_fields _ (built_scene _ ps sc)).
  rewrite (apply_transformers_fields _ (built_scene {| planner_render := r' |} ps sc)).
  cbn [sign prompt style_tag set_prompt built_scene].
  split; [done |]. split; [|done]. f_equal. apply fill_ext.
  intros []; cbn [placeholder_value planner_render]; congruence.
Qed.

Lemma write_all_same (out_dir : Path) (ss ss' : list SceneSpec)
    (f : gmap Path node) :
  Forall2 same_outputs ss ss' ->
  write_all out_dir ss f = write_all out_dir ss' f /\
  map (prompt_event out_dir) ss = map (prompt_event out_dir) ss'.
Proof.
  intros Hsame. revert f.
  induction Hsame as [|s s' ss ss' (Hsign & Hprompt & _) _ IH]; intros f;
    [done |].
  rewrite !write_all_cons. cbn [map]. unfold prompt_event, prompt_file.
  rewrite Hsign, Hprompt. split; [apply IH | f_equal; apply (IH f)].
Qed.

Lemma stub_jobs_same (out_dir : Path) (clk : nat -> Z) (n : nat)
    (ss ss' : list SceneSpec) :
  Forall2 same_outputs ss ss' ->
  map job_entry (stub_jobs out_dir clk n ss) =
    map job_entry (stub_jobs out_dir clk n ss') /\
  concat (map (job_events out_dir) (stub_jobs out_dir clk n ss)) =
    concat (map (job_events out_dir) (stub_jobs out_dir clk n ss')).
Proof.
  intros Hsame. revert n.
  induction Hsame as [|s s' ss ss' (Hsign & _ & Hstyle) _ IH]; intros n;
    [done |].
  cbn [stub_jobs map concat]. destruct (IH (S n)) as [-> ->].
  unfold job_entry, job_events. cbn [id scene status video_path].
  by rewrite Hsign, Hstyle.
Qed.

(** X19: [--fps] changes nothing that [main] does with the second
    client: for a generator that yields the twelve signs and an output
    directory that can take a run, two runs from the same world that
    differ in the frame rate alone end in the same world, file for file
    and effect for effect.  The frame rate reaches the render spec of the
    scenes and stops there: it is in no prompt, request or manifest. *)
Theorem main_ignores_fps `{FormatBuiltins}
    (generate : Date -> result (list (string * string)))
    (today : Date) (args : Args) (fps' : Z)
    (scripts : list (string * string)) (w : World) :
  generate (default today (args_date args)) = Ok scripts ->
  map fst scripts = ZODIAC_SIGNS ->
  out_dir_usable (fs w) (PyPath.of_string (args_out args)) ZODIAC_SIGNS = true ->
  main generate today (with_fps args fps') w = main generate today args w.
Proof.
  intros Hgen Hsigns Huse.
  destruct (main_stub_ok generate today args scripts Hgen Hsigns w Huse)
    as (f1 & Hmk & Hmain).
  destruct (main_stub_ok generate today (with_fps args fps') scripts Hgen Hsigns
              w Huse) as (f1' & Hmk' & Hmain').
  cbn [with_fps args_out] in Hmk'. rewrite Hmk in Hmk'. injection Hmk' as <-.
  cbv zeta in Hmain, Hmain'. rewrite Hmain, Hmain'. clear Hmain Hmain'.
  cbn [with_fps args_date args_out args_aspect args_fps args_style
       args_cyberpunk].
  change (build_transformers (with_fps args fps'))
    with (build_transformers args).
  pose proof (final_scenes_same args
                {| aspect_ratio := args_aspect args; seconds := 8;
                   fps := fps'; seed := None |}
                {| aspect_ratio := args_aspect args; seconds := 8;
                   fps := args_fps args; seed := None |}
                (args_style args) DEFAULT_PIECES scripts eq_refl eq_refl)
    as Hsame.
  set (ss' := final_scenes (build_transformers args)
                {| aspect_ratio := args_aspect args; seconds := 8;
                   fps := fps'; seed := None |}
                (args_style args) DEFAULT_PIECES scripts) in *.
  set (ss := final_scenes (build_transformers args)
               {| aspect_ratio := args_aspect args; seconds := 8;
                  fps := args_fps args; seed := None |}
               (args_style args) DEFAULT_PIECES scripts) in *.
  destruct (stub_jobs_same (PyPath.of_string (args_out args)) (clock w)
              (clock_reads w) ss' ss Hsame) as [Hentries Hevents].
  unfold final_fs, make_manifest. cbn [aspect_ratio seconds].
  rewrite Hentries, Hevents.
  destruct (write_all_same (PyPath.of_string (args_out args)) ss' ss
              (<[PyPath.of_string (args_out args) // "renders" := Dir]>
                 (<[PyPath.of_string (args_out args) // "prompts" := Dir]> f1))
              Hsame) as [-> ->].
  reflexivity.
Qed.

Lemma main_ignores_fps_witness :
  @main bare_builtins generate_daily_horoscopes_mock date0
        (with_fps args0 60) world0 =
  @main bare_builtins generate_daily_horoscopes_mock date0 args0 world0.
Proof.
  apply (@main_ignores_fps bare_builtins generate_daily_horoscopes_mock date0
           args0 60 scripts0 world0).
  - reflexivity.
  - reflexivity.
  - vm_compute. reflexivity.
Defined.

(** ** A run with the first client against a service that serves every job *)









